(** * A shallow embedding of the messaging application

    The repository is a chat client on top of a PostgreSQL back end:

    - [supabase/migrations/20250104124810_old_lagoon.sql] declares the four
      tables, their row-level security policies and the trigger
      [update_conversation_timestamp];
    - the second migration adds [profiles.username] with its constraints and
      the trigger function [check_username_unique];
    - [src/stores/messageStore.ts] holds the list of messages, with
      [sendMessage] and [fetchMessages];
    - [src/components/ChatLayout.tsx] carries, after the layout, the [App]
      component with [validateUsername] and the conversation store with
      [fetchConversations] and [createConversation];
    - [src/components/Sidebar.tsx] carries, after the side bar, the chat
      window with [handleSend].

    The module [lib/supabase] that makes the client is not among the
    sources.  In the application the client carries the session of the
    signed-in user, so its statements run as that user; the two functions of
    the message store are given for any role as well.

    Tables are lists of rows.  A statement is a function from the database
    (and the values the server supplies: [now()] and [gen_random_uuid()])
    to the new database and the response.  A failed statement leaves the
    database as it was.

    Row-level security, as PostgreSQL applies it:
    - the policies of a table are put into every statement on that table
      that a role subject to them issues, and so are the policies of every
      table a sub-select of a policy reads, and so on ([Rls.expand]).  A
      table met again while its own policies are being put in makes the
      statement fail before it reads or writes anything ("infinite recursion
      detected in policy");
    - a statement that returns columns of the rows it writes
      ([insert(...).select()]), and an UPDATE or DELETE with a WHERE clause,
      is under the SELECT policies of the table too;
    - a trigger function runs as the role of the statement that fired it;
    - the role that owns the tables is not subject to the policies
      (row-level security is enabled, not forced).

    Conventions of the embedding:
    - identifiers are strings, timestamps are integers (microseconds);
    - strings are the UTF-8 bytes of the text; [LOWER] and the bracket ranges
      act on ASCII;
    - a query without ORDER BY answers its rows in an order of the server's
      choosing. *)

From Stdlib Require Import ZArith String Ascii List Lia Bool.
From stdpp Require Import base decidable list strings sorting.

Local Open Scope string_scope.
Local Open Scope Z_scope.

Definition uuid := string.
Definition timestamp := Z.

(** ** Errors *)

(** What a statement can answer instead of rows.  [raise_exception] is a
    [RAISE EXCEPTION] of a trigger function (P0001), the next four are the
    server's integrity and policy errors (23505, 23514, 23503, 42501),
    [infinite_recursion] is the failure to put the policies of a relation
    into a statement (42P17).  [js_error] is [new Error(..)] thrown by the
    client itself. *)
Inductive error : Type :=
  | raise_exception (msg : string)
  | unique_violation (constraint_name : string)
  | check_violation (constraint_name : string)
  | foreign_key_violation (constraint_name : string)
  | insufficient_privilege (table : string)
  | js_error (msg : string)
  | infinite_recursion (relation : string).

(** A name between double quotes, as the server prints it. *)
Definition quoted (name : string) : string :=
  String (ascii_of_nat 34) (name ++ String (ascii_of_nat 34) EmptyString).

(** The table each CHECK and FOREIGN KEY constraint of the migrations is
    declared on. *)
Definition constraints : list (string * string) :=
  [ ("profiles_username_check", "profiles");
    ("profiles_id_fkey", "profiles");
    ("conversation_participants_conversation_id_fkey", "conversation_participants");
    ("conversation_participants_user_id_fkey", "conversation_participants");
    ("messages_conversation_id_fkey", "messages");
    ("messages_user_id_fkey", "messages") ].

Definition table_of_constraint (c : string) : string :=
  match List.find (fun entry => String.eqb (fst entry) c) constraints with
  | Some entry => snd entry
  | None => EmptyString
  end.

(** [error.message], the text the stores keep: the primary message of the
    server's error. *)
Definition error_message (e : error) : string :=
  match e with
  | raise_exception msg => msg
  | unique_violation c => "duplicate key value violates unique constraint " ++ quoted c
  | check_violation c =>
      "new row for relation " ++ quoted (table_of_constraint c)
      ++ " violates check constraint " ++ quoted c
  | foreign_key_violation c =>
      "insert or update on table " ++ quoted (table_of_constraint c)
      ++ " violates foreign key constraint " ++ quoted c
  | insufficient_privilege t =>
      "new row violates row-level security policy for table " ++ quoted t
  | js_error msg => msg
  | infinite_recursion rel =>
      "infinite recursion detected in policy for relation " ++ quoted rel
  end.

Definition response (A : Type) : Type := (error + A)%type.

(** A promise that has settled. *)
Inductive promise (A : Type) : Type :=
  | resolved (a : A)
  | rejected (e : error).
Arguments resolved {A} a.
Arguments rejected {A} e.

(** ** Rows *)

Module Profile.
Record t : Type := mk {
  id : uuid;
  full_name : option string;
  avatar_url : option string;
  status : string;
  last_seen : timestamp;
  created_at : timestamp;
  updated_at : timestamp;
  username : option string
}.
End Profile.

Module Conversation.
Record t : Type := mk {
  id : uuid;
  title : option string;
  is_group : bool;
  created_at : timestamp;
  updated_at : timestamp
}.

Definition set_updated_at (ts : timestamp) (c : t) : t :=
  mk (id c) (title c) (is_group c) (created_at c) ts.
End Conversation.

Module Participant.
Record t : Type := mk {
  conversation_id : uuid;
  user_id : uuid;
  created_at : timestamp
}.
End Participant.

Module Message.
Record t : Type := mk {
  id : uuid;
  conversation_id : option uuid;
  user_id : option uuid;
  content : option string;
  type : string;
  file_url : option string;
  read : bool;
  created_at : timestamp;
  updated_at : timestamp
}.

(** [Partial<Message>]: what a caller of [sendMessage] may pass.  A field
    left out takes the column default, or NULL where there is none. *)
Record draft : Type := mk_draft {
  d_id : option uuid;
  d_content : option string;
  d_created_at : option timestamp;
  d_user_id : option uuid;
  d_conversation_id : option uuid;
  d_type : option string;
  d_file_url : option string;
  d_read : option bool
}.
End Message.

(** ** The database *)

Record db : Type := mk_db {
  auth_users : list uuid;
  profiles : list Profile.t;
  conversations : list Conversation.t;
  conversation_participants : list Participant.t;
  messages : list Message.t
}.

Definition set_profiles (ps : list Profile.t) (d : db) : db :=
  mk_db (auth_users d) ps (conversations d) (conversation_participants d) (messages d).
Definition set_conversations (cs : list Conversation.t) (d : db) : db :=
  mk_db (auth_users d) (profiles d) cs (conversation_participants d) (messages d).
Definition set_conversation_participants (cps : list Participant.t) (d : db) : db :=
  mk_db (auth_users d) (profiles d) (conversations d) cps (messages d).
Definition set_messages (ms : list Message.t) (d : db) : db :=
  mk_db (auth_users d) (profiles d) (conversations d) (conversation_participants d) ms.

(** The role a statement runs as.  Every policy of the migrations is
    [TO authenticated]; row-level security is enabled, not forced, so the
    role that owns the tables is not subject to it, and neither is a role
    that bypasses row-level security, such as the one of a client made with
    the service key.  [table_owner] stands for both. *)
Inductive role : Type :=
  | authenticated (uid : uuid)
  | table_owner.

(** ** Regular expressions of the username constraint *)

Module Regex.
Inductive bracket_item : Type :=
  | range (lo hi : ascii)
  | single (c : ascii).

Definition item_matches (c : ascii) (i : bracket_item) : bool :=
  match i with
  | range lo hi =>
      ((nat_of_ascii lo <=? nat_of_ascii c) && (nat_of_ascii c <=? nat_of_ascii hi))%nat
  | single c' => Ascii.eqb c c'
  end.

Definition bracket_matches (b : list bracket_item) (c : ascii) : bool :=
  existsb (item_matches c) b.

(** [^[b]{lo,hi}$], and [^[b]+$] as [lo = 1] with no upper bound. *)
Record t : Type := mk {
  bracket : list bracket_item;
  at_least : nat;
  at_most : option nat
}.

Fixpoint all_in_bracket (b : list bracket_item) (s : string) : bool :=
  match s with
  | EmptyString => true
  | String c s' => bracket_matches b c && all_in_bracket b s'
  end.

Definition matches (re : t) (s : string) : bool :=
  all_in_bracket (bracket re) s
  && (at_least re <=? String.length s)%nat
  && match at_most re with
     | Some hi => (String.length s <=? hi)%nat
     | None => true
     end.
End Regex.

(** ['^[a-zA-Z0-9_]{3,20}$'] of [profiles_username_check]. *)
Definition profiles_username_regex : Regex.t :=
  Regex.mk [Regex.range "a" "z"; Regex.range "A" "Z"; Regex.range "0" "9"; Regex.single "_"]
           3 (Some 20%nat).

(** [CHECK (username ~ '^[a-zA-Z0-9_]{3,20}$')]; a check constraint is
    satisfied when its expression is NULL. *)
Definition profiles_username_check (p : Profile.t) : bool :=
  match Profile.username p with
  | None => true
  | Some u => Regex.matches profiles_username_regex u
  end.

(** [validateUsername] of the [App] component. *)
Definition validateUsername (username : string) : option string :=
  let regex := Regex.mk [Regex.range "a" "z"; Regex.range "A" "Z"; Regex.range "0" "9";
                         Regex.single "_"] 1 None in
  if negb (Regex.matches regex username) then
    Some "Le pseudo ne peut contenir que des lettres, des chiffres et des underscores"
  else if ((String.length username <? 3) || (20 <? String.length username))%nat then
    Some "Le pseudo doit contenir entre 3 et 20 caractères"
  else None.

(** The pattern as the specification writes it: [^[A-Za-z0-9_]{3,20}$]. *)
Definition spec_username_pattern : Regex.t :=
  Regex.mk [Regex.range "A" "Z"; Regex.range "a" "z"; Regex.range "0" "9"; Regex.single "_"]
           3 (Some 20%nat).


(** ** The error monad of statements *)

Definition bind {A B : Type} (c : response A) (k : A -> response B) : response B :=
  match c with
  | inl e => inl e
  | inr a => k a
  end.

Notation "'let?' x ':=' c 'in' k" := (bind c (fun x => k))
  (at level 10, x name, c at level 100, k at level 200).

(** A constraint or policy that must hold, else the statement aborts. *)
Definition guard (b : bool) (e : error) : response unit :=
  if b then inr tt else inl e.

(** ** SQL expressions *)

Definition lower_ascii (c : ascii) : ascii :=
  let n := nat_of_ascii c in
  if ((65 <=? n) && (n <=? 90))%nat then ascii_of_nat (n + 32) else c.

Fixpoint LOWER (s : string) : string :=
  match s with
  | EmptyString => EmptyString
  | String c s' => String (lower_ascii c) (LOWER s')
  end.

(** [a = b] in a WHERE clause: not satisfied when either side is NULL. *)
Definition sql_eq (a b : option string) : bool :=
  match a, b with
  | Some x, Some y => String.eqb x y
  | _, _ => false
  end.

(** [EXISTS (SELECT 1 FROM conversation_participants
            WHERE conversation_id = cid AND user_id = uid)]. *)
Definition is_participant (d : db) (cid uid : uuid) : bool :=
  existsb (fun cp => String.eqb (Participant.conversation_id cp) cid
                     && String.eqb (Participant.user_id cp) uid)
          (conversation_participants d).

(** ** Row-level security *)

Module Rls.
Inductive table : Type :=
  | tbl_profiles
  | tbl_conversations
  | tbl_conversation_participants
  | tbl_messages.

Inductive command : Type :=
  | SELECT
  | INSERT
  | UPDATE
  | DELETE.

Definition name (t : table) : string :=
  match t with
  | tbl_profiles => "profiles"
  | tbl_conversations => "conversations"
  | tbl_conversation_participants => "conversation_participants"
  | tbl_messages => "messages"
  end.

Definition eqb (a b : table) : bool :=
  match a, b with
  | tbl_profiles, tbl_profiles => true
  | tbl_conversations, tbl_conversations => true
  | tbl_conversation_participants, tbl_conversation_participants => true
  | tbl_messages, tbl_messages => true
  | _, _ => false
  end.

(** The tables in the FROM clauses of the sub-selects of the policies
    declared on [t] for [c]: every [EXISTS (SELECT 1 FROM
    conversation_participants ...)] of the first migration.  The policies
    of profiles, and the two [WITH CHECK (true)], have no sub-select. *)
Definition policy_reads (t : table) (c : command) : list table :=
  match t, c with
  | tbl_conversations, SELECT => [tbl_conversation_participants]
  | tbl_conversation_participants, SELECT => [tbl_conversation_participants]
  | tbl_messages, SELECT => [tbl_conversation_participants]
  | tbl_messages, INSERT => [tbl_conversation_participants]
  | _, _ => []
  end.

(** Putting the policies of [t] for the commands [cs] into a statement.
    [active] are the tables whose policies are being put in further out.
    Policies without a sub-select go in as they are.  Otherwise [t] must
    not be active, and each table a sub-select reads gets its SELECT
    policies put in, with [t] active.  There are four tables, so the nesting
    never passes four and [fuel] does not run out. *)
Fixpoint expand (fuel : nat) (active : list table) (t : table) (cs : list command)
  : response unit :=
  match List.concat (map (policy_reads t) cs) with
  | [] => inr tt
  | reads =>
      if existsb (eqb t) active then inl (infinite_recursion (name t))
      else
        match fuel with
        | O => inr tt
        | S fuel' =>
            fold_right (fun t' rest => let? _ := expand fuel' (t :: active) t' [SELECT] in rest)
                       (inr tt) reads
        end
  end.

(** What the server does to a statement of role [r] on table [t] before
    running it; [cs] are the commands whose policies apply. *)
Definition prepare (r : role) (t : table) (cs : list command) : response unit :=
  match r with
  | authenticated _ => expand 4%nat [] t cs
  | table_owner => inr tt
  end.
End Rls.

(** ** The policies of the migrations *)

(** Each policy is the predicate of its USING or WITH CHECK clause, on the
    stored tables.  A statement gets to evaluate it only once [Rls.prepare]
    has let the statement through. *)
Module Policy.
(** "Users can read all profiles", "Users can search by username". *)
Definition profiles_select (uid : uuid) (p : Profile.t) : bool := true.

(** "Users can update own profile": [USING (auth.uid() = id)]. *)
Definition profiles_update (uid : uuid) (p : Profile.t) : bool :=
  String.eqb uid (Profile.id p).

(** "Users can read conversations they're part of". *)
Definition conversations_select (d : db) (uid : uuid) (c : Conversation.t) : bool :=
  is_participant d (Conversation.id c) uid.

(** "Users can create conversations": [WITH CHECK (true)]. *)
Definition conversations_insert (uid : uuid) (c : Conversation.t) : bool := true.

(** "Users can read conversation participants". *)
Definition conversation_participants_select (d : db) (uid : uuid) (cp : Participant.t) : bool :=
  is_participant d (Participant.conversation_id cp) uid.

(** "Users can add participants": [WITH CHECK (true)]. *)
Definition conversation_participants_insert (uid : uuid) (cp : Participant.t) : bool := true.

(** "Users can read messages in their conversations". *)
Definition messages_select (d : db) (uid : uuid) (m : Message.t) : bool :=
  match Message.conversation_id m with
  | Some cid => is_participant d cid uid
  | None => false
  end.

(** "Users can send messages to their conversations". *)
Definition messages_insert (d : db) (uid : uuid) (m : Message.t) : bool :=
  match Message.conversation_id m with
  | Some cid => is_participant d cid uid
  | None => false
  end.

(** A policy applied to the role of the statement. *)
Definition permits (r : role) (policy : uuid -> bool) : bool :=
  match r with
  | authenticated uid => policy uid
  | table_owner => true
  end.

(** A command for which the table has no policy at all. *)
Definition no_policy : uuid -> bool := fun _ => false.
End Policy.

(** ** Trigger functions *)

(** [check_username_unique], BEFORE INSERT OR UPDATE ON profiles. *)
Definition check_username_unique (d : db) (NEW : Profile.t) : response Profile.t :=
  if existsb (fun p => sql_eq (option_map LOWER (Profile.username p))
                              (option_map LOWER (Profile.username NEW))
                       && negb (String.eqb (Profile.id p) (Profile.id NEW)))
             (profiles d)
  then inl (raise_exception "Username already exists")
  else inr NEW.

(** [update_conversation_timestamp], AFTER INSERT ON messages.  The
    function is not SECURITY DEFINER: its UPDATE runs as the role of the
    insert.  conversations has no UPDATE policy, and the WHERE clause puts
    the UPDATE under the SELECT policy too. *)
Definition update_conversation_timestamp (r : role) (now : timestamp) (NEW : Message.t)
    (d : db) : response db :=
  let? _ := Rls.prepare r Rls.tbl_conversations [Rls.UPDATE; Rls.SELECT] in
  if Policy.permits r Policy.no_policy then
    inr (set_conversations
           (map (fun c => if sql_eq (Some (Conversation.id c)) (Message.conversation_id NEW)
                          then Conversation.set_updated_at now c else c)
                (conversations d))
           d)
  else inr d.

(** ** Statements *)

Module Sql.
(** The row [handleAuth] inserts: [{ id, username, full_name }]. *)
Record profile_insert : Type := mk_profile_insert {
  pi_id : uuid;
  pi_username : option string;
  pi_full_name : option string
}.

Definition new_profile (now : timestamp) (v : profile_insert) : Profile.t :=
  Profile.mk (pi_id v) (pi_full_name v) None "offline" now now now (pi_username v).

(** [UNIQUE (username)]: two NULLs do not collide. *)
Definition username_taken (ps : list Profile.t) (NEW : Profile.t) : bool :=
  existsb (fun p => sql_eq (Profile.username p) (Profile.username NEW)
                    && negb (String.eqb (Profile.id p) (Profile.id NEW))) ps.

(** [INSERT INTO profiles].  The statement returns no column.  No policy of
    profiles has a sub-select, so there is nothing to put in that could
    fail; the trigger's own SELECT on profiles is under [USING (true)]. *)
Definition profiles_insert (d : db) (r : role) (now : timestamp) (v : profile_insert)
  : response db :=
  let? NEW := check_username_unique d (new_profile now v) in
  let? _ := guard (Policy.permits r Policy.no_policy) (insufficient_privilege "profiles") in
  let? _ := guard (profiles_username_check NEW) (check_violation "profiles_username_check") in
  let? _ := guard (negb (existsb (fun p => String.eqb (Profile.id p) (Profile.id NEW)) (profiles d)))
        (unique_violation "profiles_pkey") in
  let? _ := guard (negb (username_taken (profiles d) NEW)) (unique_violation "profiles_username_key") in
  let? _ := guard (existsb (String.eqb (Profile.id NEW)) (auth_users d))
        (foreign_key_violation "profiles_id_fkey") in
  inr (set_profiles (profiles d ++ [NEW]) d).

(** The SET list of an update of a profile: [None] leaves the column.  The
    key column is not updatable: the policy is applied to the new row too. *)
Record profile_update : Type := mk_profile_update {
  pu_username : option string;
  pu_full_name : option string;
  pu_avatar_url : option string;
  pu_status : option string
}.

Definition updated_profile (v : profile_update) (OLD : Profile.t) : Profile.t :=
  Profile.mk (Profile.id OLD)
    (match pu_full_name v with Some x => Some x | None => Profile.full_name OLD end)
    (match pu_avatar_url v with Some x => Some x | None => Profile.avatar_url OLD end)
    (match pu_status v with Some x => x | None => Profile.status OLD end)
    (Profile.last_seen OLD) (Profile.created_at OLD) (Profile.updated_at OLD)
    (match pu_username v with Some x => Some x | None => Profile.username OLD end).

(** [UPDATE profiles SET ... WHERE id = target].  Rows the USING clause
    hides are not updated, and that is no error. *)
Definition profiles_update (d : db) (r : role) (target : uuid) (v : profile_update)
  : response db :=
  match List.find (fun p => String.eqb (Profile.id p) target
                            && Policy.permits r (fun uid => Policy.profiles_update uid p))
                  (profiles d) with
  | None => inr d
  | Some OLD =>
      let? NEW := check_username_unique d (updated_profile v OLD) in
      let? _ := guard (Policy.permits r (fun uid => Policy.profiles_update uid NEW))
            (insufficient_privilege "profiles") in
      let? _ := guard (profiles_username_check NEW) (check_violation "profiles_username_check") in
      let? _ := guard (negb (username_taken (profiles d) NEW)) (unique_violation "profiles_username_key") in
      inr (set_profiles
             (map (fun p => if String.eqb (Profile.id p) target then NEW else p) (profiles d))
             d)
  end.

(** [INSERT INTO conversations (is_group) VALUES (..) RETURNING *], the
    statement of [.insert([..]).select().single()].  Returning the row puts
    the new row under the SELECT policy as well. *)
Definition conversations_insert (d : db) (r : role) (now : timestamp) (fresh : uuid)
    (is_group : bool) : response (db * Conversation.t) :=
  let NEW := Conversation.mk fresh None is_group now now in
  let? _ := Rls.prepare r Rls.tbl_conversations [Rls.INSERT; Rls.SELECT] in
  let? _ := guard (Policy.permits r (fun uid => Policy.conversations_insert uid NEW))
        (insufficient_privilege "conversations") in
  let? _ := guard (Policy.permits r (fun uid => Policy.conversations_select d uid NEW))
        (insufficient_privilege "conversations") in
  let? _ := guard (negb (existsb (fun c => String.eqb (Conversation.id c) fresh) (conversations d)))
        (unique_violation "conversations_pkey") in
  inr (set_conversations (conversations d ++ [NEW]) d, NEW).

(** The rows of one multi-row insert into conversation_participants, as
    [(conversation_id, user_id)].  The primary key is checked as each row
    goes in, against the rows before it in the same statement too. *)
Fixpoint conversation_participants_rows (r : role) (now : timestamp)
    (rows : list (uuid * uuid)) (tbl : list Participant.t) : response (list Participant.t) :=
  match rows with
  | [] => inr tbl
  | (cid, uid) :: rest =>
      let NEW := Participant.mk cid uid now in
      let? _ := guard (Policy.permits r (fun u => Policy.conversation_participants_insert u NEW))
            (insufficient_privilege "conversation_participants") in
      let? _ := guard (negb (existsb (fun cp => String.eqb (Participant.conversation_id cp) cid
                                      && String.eqb (Participant.user_id cp) uid) tbl))
            (unique_violation "conversation_participants_pkey") in
      conversation_participants_rows r now rest (tbl ++ [NEW])
  end.

(** [INSERT INTO conversation_participants (conversation_id, user_id)
    VALUES ...], the statement of [.insert(rows)] with no [.select()]: one
    statement, all rows or none, returning no column, so under the INSERT
    policy alone, which has no sub-select.  The references are checked when
    the statement ends. *)
Definition conversation_participants_insert (d : db) (r : role) (now : timestamp)
    (rows : list (uuid * uuid)) : response db :=
  let? tbl := conversation_participants_rows r now rows (conversation_participants d) in
  let? _ := guard (forallb (fun row => existsb (fun c => String.eqb (Conversation.id c) (fst row))
                                     (conversations d)) rows)
        (foreign_key_violation "conversation_participants_conversation_id_fkey") in
  let? _ := guard (forallb (fun row => existsb (fun p => String.eqb (Profile.id p) (snd row))
                                     (profiles d)) rows)
        (foreign_key_violation "conversation_participants_user_id_fkey") in
  inr (set_conversation_participants tbl d).

Definition new_message (now : timestamp) (fresh : uuid) (v : Message.draft) : Message.t :=
  Message.mk
    (match Message.d_id v with Some x => x | None => fresh end)
    (Message.d_conversation_id v)
    (Message.d_user_id v)
    (Message.d_content v)
    (match Message.d_type v with Some x => x | None => "text" end)
    (Message.d_file_url v)
    (match Message.d_read v with Some x => x | None => false end)
    (match Message.d_created_at v with Some x => x | None => now end)
    now.

(** A nullable reference: NULL refers to nothing and passes. *)
Definition references (ids : list uuid) (ref : option uuid) : bool :=
  match ref with
  | Some x => existsb (String.eqb x) ids
  | None => true
  end.

(** [INSERT INTO messages (...) VALUES (...) RETURNING *], the statement of
    [.insert([message]).select().single()], with the trigger that follows
    the insert. *)
Definition messages_insert (d : db) (r : role) (now : timestamp) (fresh : uuid)
    (v : Message.draft) : response (db * Message.t) :=
  let NEW := new_message now fresh v in
  let? _ := Rls.prepare r Rls.tbl_messages [Rls.INSERT; Rls.SELECT] in
  let? _ := guard (Policy.permits r (fun uid => Policy.messages_insert d uid NEW))
        (insufficient_privilege "messages") in
  let? _ := guard (Policy.permits r (fun uid => Policy.messages_select d uid NEW))
        (insufficient_privilege "messages") in
  let? _ := guard (negb (existsb (fun m => String.eqb (Message.id m) (Message.id NEW)) (messages d)))
        (unique_violation "messages_pkey") in
  let? _ := guard (references (map Conversation.id (conversations d)) (Message.conversation_id NEW))
        (foreign_key_violation "messages_conversation_id_fkey") in
  let? _ := guard (references (map Profile.id (profiles d)) (Message.user_id NEW))
        (foreign_key_violation "messages_user_id_fkey") in
  let? d' := update_conversation_timestamp r now NEW (set_messages (messages d ++ [NEW]) d) in
  inr (d', NEW).
End Sql.


(** ** Queries *)

Module Select.
(** [ORDER BY created_at ASC]. *)
Definition created_le (a b : Message.t) : Prop :=
  Message.created_at a <= Message.created_at b.

#[global] Instance created_le_dec : RelDecision created_le :=
  fun a b => Z_le_dec (Message.created_at a) (Message.created_at b).

(** [.from('messages').select('*').eq('conversation_id', cid)
     .order('created_at', { ascending: true })]. *)
Definition select_messages (d : db) (r : role) (cid : uuid) : response (list Message.t) :=
  let? _ := Rls.prepare r Rls.tbl_messages [Rls.SELECT] in
  inr (merge_sort created_le
         (List.filter (fun m => Policy.permits r (fun uid => Policy.messages_select d uid m)
                                && sql_eq (Message.conversation_id m) (Some cid))
                      (messages d))).

(** One object of the embedding [conversation_participants(user:profiles( * ))]. *)
Record participant_embed : Type := mk_participant_embed {
  user : option Profile.t
}.

(** A row of conversations with its two embedded resources; [P] is what
    the [participants] array holds. *)
Record embedded (P : Type) : Type := mk_embedded {
  id : uuid;
  title : option string;
  is_group : bool;
  created_at : timestamp;
  updated_at : timestamp;
  participants : list P;
  last_message : list Message.t
}.
Arguments mk_embedded {P}.
Arguments id {P}.
Arguments title {P}.
Arguments is_group {P}.
Arguments created_at {P}.
Arguments updated_at {P}.
Arguments participants {P}.
Arguments last_message {P}.

(** [ORDER BY updated_at DESC]. *)
Definition updated_ge (a b : Conversation.t) : Prop :=
  Conversation.updated_at b <= Conversation.updated_at a.

#[global] Instance updated_ge_dec : RelDecision updated_ge :=
  fun a b => Z_le_dec (Conversation.updated_at b) (Conversation.updated_at a).

(** [participants:conversation_participants(user:profiles( * ))] for one
    conversation: the membership rows the caller may read, each with the
    profile it refers to. *)
Definition embed_participants (d : db) (r : role) (c : Conversation.t)
  : list participant_embed :=
  map (fun cp =>
         mk_participant_embed
           (List.find (fun p => String.eqb (Profile.id p) (Participant.user_id cp)
                                && Policy.permits r (fun uid => Policy.profiles_select uid p))
                      (profiles d)))
      (List.filter (fun cp => String.eqb (Participant.conversation_id cp) (Conversation.id c)
                              && Policy.permits r
                                   (fun uid => Policy.conversation_participants_select d uid cp))
                   (conversation_participants d)).

(** [last_message:messages( * )] for one conversation: the alias names the
    embedded messages, the embedding has no order and no limit. *)
Definition embed_messages (d : db) (r : role) (c : Conversation.t) : list Message.t :=
  List.filter (fun m => sql_eq (Message.conversation_id m) (Some (Conversation.id c))
                        && Policy.permits r (fun uid => Policy.messages_select d uid m))
              (messages d).

(** The query of [fetchConversations]: conversations, with the three
    embedded tables joined in. *)
Definition select_conversations (d : db) (r : role)
  : response (list (embedded participant_embed)) :=
  let? _ := Rls.prepare r Rls.tbl_conversations [Rls.SELECT] in
  let? _ := Rls.prepare r Rls.tbl_conversation_participants [Rls.SELECT] in
  let? _ := Rls.prepare r Rls.tbl_profiles [Rls.SELECT] in
  let? _ := Rls.prepare r Rls.tbl_messages [Rls.SELECT] in
  inr (map (fun c => mk_embedded (Conversation.id c) (Conversation.title c)
                       (Conversation.is_group c) (Conversation.created_at c)
                       (Conversation.updated_at c)
                       (embed_participants d r c) (embed_messages d r c))
           (merge_sort updated_ge
              (List.filter (fun c => Policy.permits r
                                       (fun uid => Policy.conversations_select d uid c))
                           (conversations d)))).
End Select.

(** ** The message store, [stores/messageStore.ts] *)

Module MessageStore.
Record t : Type := mk {
  messages : list Message.t;
  loading : bool;
  error : option string
}.

Definition init : t := mk [] false None.

(** [sendMessage], for a client [supabase] whose statements run as [r]:
    the module that makes the client, [lib/supabase], is not among the
    sources. *)
Definition sendMessage_as (d : db) (r : role) (now : timestamp) (fresh : uuid)
    (message : Message.draft) (s : t) : db * t * promise unit :=
  match Sql.messages_insert d r now fresh message with
  | inr (d', data) =>
      (d', mk (messages s ++ [data])%list (loading s) (error s), resolved tt)
  | inl e =>
      (d, mk (messages s) (loading s) (Some (error_message e)), resolved tt)
  end.

(** [fetchMessages], for a client whose statements run as [r]. *)
Definition fetchMessages_as (d : db) (r : role) (conversationId : uuid) (s : t) : t :=
  let s := mk (messages s) true (error s) in
  let s := match Select.select_messages d r conversationId with
           | inr data => mk data (loading s) None
           | inl e => mk (messages s) (loading s) (Some (error_message e))
           end in
  mk (messages s) false (error s).

(** The two functions in the application, where the client carries the
    session of the signed-in user [uid]. *)
Definition sendMessage (d : db) (uid : uuid) (now : timestamp) (fresh : uuid)
    (message : Message.draft) (s : t) : db * t * promise unit :=
  sendMessage_as d (authenticated uid) now fresh message s.

Definition fetchMessages (d : db) (uid : uuid) (conversationId : uuid) (s : t) : t :=
  fetchMessages_as d (authenticated uid) conversationId s.
End MessageStore.

(** ** The conversation store, in [components/ChatLayout.tsx] *)

Module ConversationStore.
Record t : Type := mk {
  conversations : list (Select.embedded (option Profile.t));
  loading : bool;
  error : option string
}.

Definition init : t := mk [] false None.

(** [session] is what [supabase.auth.getUser()] finds. *)
Definition fetchConversations (d : db) (session : option uuid) (s : t) : t :=
  let s := mk (conversations s) true (error s) in
  let s := match session with
           | None => mk (conversations s) (loading s)
                        (Some (error_message (js_error "No user found")))
           | Some uid =>
               match Select.select_conversations d (authenticated uid) with
               | inl e => mk (conversations s) (loading s) (Some (error_message e))
               | inr data =>
                   let conversationsWithParticipants :=
                     map (fun conv =>
                            Select.mk_embedded (Select.id conv) (Select.title conv)
                              (Select.is_group conv) (Select.created_at conv)
                              (Select.updated_at conv)
                              (map Select.user (Select.participants conv))
                              (Select.last_message conv))
                         data in
                   mk conversationsWithParticipants (loading s) None
               end
           end in
  mk (conversations s) false (error s).

(** [now] and [fresh] serve the insert of the conversation, [now'] the
    insert of its participants. *)
Definition createConversation (d : db) (session : option uuid) (now : timestamp)
    (fresh : uuid) (now' : timestamp) (participants : list uuid) (s : t)
  : db * t * promise uuid :=
  match session with
  | None =>
      let e := js_error "No user found" in
      (d, mk (conversations s) (loading s) (Some (error_message e)), rejected e)
  | Some uid =>
      let allParticipants := (participants ++ [uid])%list in
      match Sql.conversations_insert d (authenticated uid) now fresh
              (2 <? length allParticipants)%nat with
      | inl e => (d, mk (conversations s) (loading s) (Some (error_message e)), rejected e)
      | inr (d1, data) =>
          let participantInserts :=
            map (fun userId => (Conversation.id data, userId)) allParticipants in
          match Sql.conversation_participants_insert d1 (authenticated uid) now'
                  participantInserts with
          | inl e => (d1, mk (conversations s) (loading s) (Some (error_message e)), rejected e)
          | inr d2 => (d2, s, resolved (Conversation.id data))
          end
      end
  end.
End ConversationStore.

(** ** The chat window, in [components/Sidebar.tsx] *)

Module ChatWindow.
(** The white space and line terminators [trim] removes.  Of one byte:
    U+0009 to U+000D and U+0020. *)
Definition is_space (c : ascii) : bool :=
  let n := nat_of_ascii c in
  ((n =? 32) || ((9 <=? n) && (n <=? 13)))%nat.

(** Of two bytes: U+00A0. *)
Definition is_space2 (c1 c2 : ascii) : bool :=
  ((nat_of_ascii c1 =? 194) && (nat_of_ascii c2 =? 160))%nat.

(** Of three bytes: U+1680, U+2000 to U+200A, U+2028, U+2029, U+202F,
    U+205F, U+3000 and U+FEFF. *)
Definition is_space3 (c1 c2 c3 : ascii) : bool :=
  let a := nat_of_ascii c1 in
  let b := nat_of_ascii c2 in
  let c := nat_of_ascii c3 in
  (((a =? 225) && (b =? 154) && (c =? 128))
   || ((a =? 226) && (b =? 128)
       && (((128 <=? c) && (c <=? 138)) || (c =? 168) || (c =? 169) || (c =? 175)))
   || ((a =? 226) && (b =? 129) && (c =? 159))
   || ((a =? 227) && (b =? 128) && (c =? 128))
   || ((a =? 239) && (b =? 187) && (c =? 191)))%nat.

(** [!s.trim()]: nothing is left of [s] once its white space is removed. *)
Fixpoint blank (s : string) : bool :=
  match s with
  | EmptyString => true
  | String c1 s1 =>
      if is_space c1 then blank s1
      else
        match s1 with
        | EmptyString => false
        | String c2 s2 =>
            if is_space2 c1 c2 then blank s2
            else
              match s2 with
              | EmptyString => false
              | String c3 s3 => if is_space3 c1 c2 c3 then blank s3 else false
              end
        end
  end.

(** The object [handleSend] passes to [sendMessage]. *)
Definition text_message (currentUserId conversationId : uuid) (newMessage : string)
    (clock : timestamp) : Message.draft :=
  Message.mk_draft None (Some newMessage) (Some clock) (Some currentUserId)
    (Some conversationId) (Some "text") None None.

(** [handleSend]; [clock] is the client's [new Date()].  The session that
    renders the window is the one the statements run as. *)
Definition handleSend (d : db) (currentUserId conversationId : uuid) (newMessage : string)
    (clock : timestamp) (now : timestamp) (fresh : uuid) (s : MessageStore.t)
  : db * MessageStore.t :=
  if blank newMessage then (d, s)
  else
    fst (MessageStore.sendMessage d currentUserId now fresh
           (text_message currentUserId conversationId newMessage clock) s).
End ChatWindow.

(** ** The database after a statement *)

(** A statement that fails is rolled back. *)
Definition after (d : db) (res : response db) : db :=
  match res with
  | inl _ => d
  | inr d' => d'
  end.

(** The statements the clients issue that write. *)
Inductive statement : Type :=
  | insert_profile (v : Sql.profile_insert)
  | update_profile (target : uuid) (v : Sql.profile_update)
  | insert_conversation (fresh : uuid) (is_group : bool)
  | insert_conversation_participants (rows : list (uuid * uuid))
  | insert_message (fresh : uuid) (v : Message.draft).

Definition execute (d : db) (r : role) (now : timestamp) (st : statement) : db :=
  match st with
  | insert_profile v => after d (Sql.profiles_insert d r now v)
  | update_profile target v => after d (Sql.profiles_update d r target v)
  | insert_conversation fresh is_group =>
      after d (let? x := Sql.conversations_insert d r now fresh is_group in inr (fst x))
  | insert_conversation_participants rows =>
      after d (Sql.conversation_participants_insert d r now rows)
  | insert_message fresh v =>
      after d (let? x := Sql.messages_insert d r now fresh v in inr (fst x))
  end.

(** ** Vocabulary of the properties *)

(** Every stored username matches the pattern of the specification. *)
Definition usernames_valid (d : db) : Prop :=
  forall p u, In p (profiles d) -> Profile.username p = Some u ->
              Regex.matches spec_username_pattern u = true.


(** How many rows of a list carry the identifier [mid]. *)
Definition occurrences (mid : uuid) (l : list Message.t) : nat :=
  length (List.filter (fun m => String.eqb (Message.id m) mid) l).

(** The messages of a conversation, as stored. *)
Definition messages_of (d : db) (cid : uuid) : list Message.t :=
  List.filter (fun m => sql_eq (Message.conversation_id m) (Some cid)) (messages d).

(** The user ids of the participants of a conversation, as stored. *)
Definition members (d : db) (cid : uuid) : list uuid :=
  map Participant.user_id
      (List.filter (fun cp => String.eqb (Participant.conversation_id cp) cid)
                   (conversation_participants d)).

(** The foreign keys of conversation_participants hold. *)
Definition participants_referenced (d : db) : bool :=
  forallb (fun cp =>
             existsb (fun c => String.eqb (Conversation.id c) (Participant.conversation_id cp))
                     (conversations d)
             && existsb (fun p => String.eqb (Profile.id p) (Participant.user_id cp))
                        (profiles d))
          (conversation_participants d).

(** The update timestamp of the conversation [cid]. *)
Definition updated_at_of (d : db) (cid : uuid) : option timestamp :=
  option_map Conversation.updated_at
    (List.find (fun c => String.eqb (Conversation.id c) cid) (conversations d)).

(** The creation timestamp of the most recent message of [cid]. *)
Definition latest_created_at (d : db) (cid : uuid) : option timestamp :=
  fold_right (fun m acc => match acc with
                           | None => Some (Message.created_at m)
                           | Some t => Some (Z.max (Message.created_at m) t)
                           end)
             None (messages_of d cid).

(** The directory lists the conversation [cid]. *)
Definition listed (s : ConversationStore.t) (cid : uuid) : Prop :=
  exists v, In v (ConversationStore.conversations s) /\ Select.id v = cid.

(** The answer of the server to every statement of a signed-in user that
    has the policies of conversation_participants put into it. *)
Definition policy_recursion : error := infinite_recursion "conversation_participants".

(** ** Sample data *)

Module Sample.
Definition alice : Profile.t :=
  Profile.mk "A" (Some "Alice") None "offline" 1 1 1 (Some "Alice").
Definition bob : Profile.t :=
  Profile.mk "B" (Some "bob") None "offline" 2 2 2 (Some "bob").
Definition carol : Profile.t :=
  Profile.mk "C" (Some "carol") None "offline" 3 3 3 (Some "carol").

(** Three profiles; "D" has signed up and has no profile yet. *)
Definition d0 : db :=
  mk_db ["A"; "B"; "C"; "D"] [alice; bob; carol] [] [] [].

(** [d0] with the conversation "c1" of B and A, stored by the owner of the
    tables at time 10. *)
Definition d1 : db :=
  mk_db ["A"; "B"; "C"; "D"] [alice; bob; carol]
        [Conversation.mk "c1" None false 10 10]
        [Participant.mk "c1" "B" 11; Participant.mk "c1" "A" 11]
        [].


(** The message of [handleSend] for A with the client's clock at 100, as
    the owner of the tables stores it at server time 20. *)
Definition m1 : Message.t :=
  Message.mk "m1" (Some "c1") (Some "A") (Some "hi") "text" None false 100 20.

(** [d1] after that insert. *)
Definition d2 : db :=
  mk_db ["A"; "B"; "C"; "D"] [alice; bob; carol]
        [Conversation.mk "c1" None false 10 20]
        [Participant.mk "c1" "B" 11; Participant.mk "c1" "A" 11]
        [m1].

(** The message of [handleSend] for B with the client's clock at 30, as
    the owner of the tables stores it at server time 30. *)
Definition m2 : Message.t :=
  Message.mk "m2" (Some "c1") (Some "B") (Some "hi") "text" None false 30 30.

(** [d2] after that insert. *)
Definition d3 : db :=
  mk_db ["A"; "B"; "C"; "D"] [alice; bob; carol]
        [Conversation.mk "c1" None false 10 30]
        [Participant.mk "c1" "B" 11; Participant.mk "c1" "A" 11]
        [m1; m2].
End Sample.

From Stdlib Require DecimalString DecimalNat.

(** ** The side bar, [components/Sidebar.tsx] *)

Module Sidebar.
(** The state hooks of the component.  The users it holds are rows of
    profiles, as the search returns them. *)
Record t : Type := mk {
  isCreating : bool;
  searchQuery : string;
  selectedUsers : list Profile.t;
  suggestions : list Profile.t;
  isSearching : bool
}.

Definition handleUserSelect (user : Profile.t) (st : t) : t :=
  let selected :=
    match List.find (fun u => String.eqb (Profile.id u) (Profile.id user)) (selectedUsers st) with
    | None => (selectedUsers st ++ [user])%list
    | Some _ => selectedUsers st
    end in
  mk (isCreating st) "" selected [] (isSearching st).

Definition handleRemoveUser (userId : uuid) (st : t) : t :=
  mk (isCreating st) (searchQuery st)
     (List.filter (fun u => negb (String.eqb (Profile.id u) userId)) (selectedUsers st))
     (suggestions st) (isSearching st).

(** [handleCreateConversation]; the last component of the result is the
    path handed to [navigate], if any.  A rejection of
    [createConversation] is logged and goes no further. *)
Definition handleCreateConversation (d : db) (session : option uuid) (now : timestamp)
    (fresh : uuid) (now' : timestamp) (store : ConversationStore.t) (st : t)
  : db * ConversationStore.t * t * option string :=
  if (length (selectedUsers st) =? 0)%nat then (d, store, st, None)
  else
    let userIds := map Profile.id (selectedUsers st) in
    match ConversationStore.createConversation d session now fresh now' userIds store with
    | (d', store', resolved conversationId) =>
        (d', store', mk false (searchQuery st) [] (suggestions st) (isSearching st),
         Some ("/chat/" ++ conversationId))
    | (d', store', rejected _) => (d', store', st, None)
    end.

Section Search.
(** [value ILIKE pattern], the operator of the server. *)
Variable ilike : string -> string -> bool.

(** The order in which the server scans the rows of profiles: the query has
    no ORDER BY. *)
Variable scan : list Profile.t -> list Profile.t.

(** [.from('profiles').select('*').ilike('full_name', pattern).limit(5)];
    a NULL name matches nothing.  No policy of profiles has a sub-select. *)
Definition select_profiles (d : db) (r : role) (pattern : string)
  : response (list Profile.t) :=
  inr (firstn 5
         (List.filter (fun p => Policy.permits r (fun uid => Policy.profiles_select uid p)
                                && match Profile.full_name p with
                                   | Some n => ilike n pattern
                                   | None => false
                                   end)
                      (scan (profiles d)))).

(** [searchUsers], once the delay of the effect has passed. *)
Definition searchUsers (d : db) (uid : uuid) (st : t) : t :=
  if ChatWindow.blank (searchQuery st) then
    mk (isCreating st) (searchQuery st) (selectedUsers st) [] (isSearching st)
  else
    let st := mk (isCreating st) (searchQuery st) (selectedUsers st) (suggestions st) true in
    let st := match select_profiles d (authenticated uid) ("%" ++ searchQuery st ++ "%") with
              | inr data =>
                  mk (isCreating st) (searchQuery st) (selectedUsers st) data (isSearching st)
              | inl _ => st
              end in
    mk (isCreating st) (searchQuery st) (selectedUsers st) (suggestions st) false.
End Search.
End Sidebar.

(** ** Recording and attachments of the chat window, in [components/Sidebar.tsx] *)

Module Recording.
(** [Number.prototype.toString] on a natural number. *)
Definition toString (n : nat) : string :=
  DecimalString.NilZero.string_of_uint (Nat.to_uint n).

Fixpoint repeat_char (c : ascii) (n : nat) : string :=
  match n with
  | O => EmptyString
  | S n' => String c (repeat_char c n')
  end.

(** [s.padStart(targetLength, c)] with a pad of one character. *)
Definition padStart (targetLength : nat) (c : ascii) (s : string) : string :=
  repeat_char c (targetLength - String.length s) ++ s.

(** [formatTime]; the recording time counts whole seconds up from 0. *)
Definition formatTime (seconds : nat) : string :=
  let mins := (seconds / 60)%nat in
  let secs := (seconds mod 60)%nat in
  toString mins ++ ":" ++ padStart 2 "0" (toString secs).
End Recording.

Module Attachment.
(** [s.split(sep)] with a separator of one character. *)
Fixpoint split (sep : ascii) (s : string) : list string :=
  match s with
  | EmptyString => [EmptyString]
  | String c s' =>
      if Ascii.eqb c sep then EmptyString :: split sep s'
      else match split sep s' with
           | seg :: rest => String c seg :: rest
           | [] => [String c EmptyString]
           end
  end.

(** [parts.join(sep)]. *)
Fixpoint join (sep : ascii) (parts : list string) : string :=
  match parts with
  | [] => EmptyString
  | [seg] => seg
  | seg :: rest => seg ++ String sep (join sep rest)
  end.

(** [file.name.split('.').pop()]. *)
Definition fileExt (name : string) : string :=
  List.last (split "." name) EmptyString.

(** [filePath] of [uploadToSupabase]; [random] is the text of
    [Math.random()]. *)
Definition filePath (conversationId : uuid) (random : string) (name : string) : string :=
  let fileName := random ++ "." ++ fileExt name in
  conversationId ++ "/" ++ fileName.

(** What [uploadToSupabase] leaves of the two hooks it sets. *)
Record t : Type := mk {
  uploadProgress : nat;
  previewUrl : option string
}.

Section Storage.
(** [getPublicUrl] of the storage bucket. *)
Variable getPublicUrl : string -> string.

(** [uploadToSupabase]; [uploadError] is what the upload to the bucket
    answers, [type] is "image", "audio" or "file". *)
Definition uploadToSupabase (d : db) (currentUserId conversationId : uuid)
    (name : string) (type : string) (random : string) (uploadError : option error)
    (clock : timestamp) (now : timestamp) (fresh : uuid) (s : MessageStore.t) (ui : t)
  : db * MessageStore.t * t :=
  match uploadError with
  | Some _ => (d, s, mk 0 None)
  | None =>
      let publicUrl := getPublicUrl (filePath conversationId random name) in
      let '(d', s', _) :=
        MessageStore.sendMessage d currentUserId now fresh
          (Message.mk_draft None (Some name) (Some clock) (Some currentUserId)
             (Some conversationId) (Some type) (Some publicUrl) None)
          s in
      (d', s', mk 0 None)
  end.

(** The type [handleFileUpload] passes on, from [file.type]. *)
Definition upload_type (mime : string) : string :=
  if String.prefix "image/" mime then "image" else "file".
End Storage.
End Attachment.

(** ** Deletions *)

Module Cascade.
(** [DELETE FROM conversations WHERE id = cid].  No policy is declared
    for DELETE, and the WHERE clause puts the statement under the SELECT
    policy.  The references to conversations are ON DELETE CASCADE. *)
Definition conversations_delete (d : db) (r : role) (cid : uuid) : response db :=
  let? _ := Rls.prepare r Rls.tbl_conversations [Rls.DELETE; Rls.SELECT] in
  if Policy.permits r Policy.no_policy then
    inr (mk_db (auth_users d) (profiles d)
           (List.filter (fun c => negb (String.eqb (Conversation.id c) cid)) (conversations d))
           (List.filter (fun cp => negb (String.eqb (Participant.conversation_id cp) cid))
                        (conversation_participants d))
           (List.filter (fun m => negb (sql_eq (Message.conversation_id m) (Some cid)))
                        (messages d)))
  else inr d.

(** [DELETE FROM profiles WHERE id = uid], with the cascade to the
    memberships and the messages of the profile.  No policy is declared for
    DELETE, so a signed-in caller sees no row to delete; the SELECT policies
    of profiles have no sub-select. *)
Definition profiles_delete (d : db) (r : role) (uid : uuid) : response db :=
  if Policy.permits r Policy.no_policy then
    inr (mk_db (auth_users d)
           (List.filter (fun p => negb (String.eqb (Profile.id p) uid)) (profiles d))
           (conversations d)
           (List.filter (fun cp => negb (String.eqb (Participant.user_id cp) uid))
                        (conversation_participants d))
           (List.filter (fun m => negb (sql_eq (Message.user_id m) (Some uid))) (messages d)))
  else inr d.
End Cascade.

(** ** Integrity of the stored tables *)

(** The primary keys: no two rows of a table carry the same key. *)
Definition keys_unique (d : db) : Prop :=
  List.NoDup (map Profile.id (profiles d))
  /\ List.NoDup (map Conversation.id (conversations d))
  /\ List.NoDup (map (fun cp => (Participant.conversation_id cp, Participant.user_id cp))
                     (conversation_participants d))
  /\ List.NoDup (map Message.id (messages d)).

(** No two profiles with different ids carry usernames that are equal up
    to case. *)
Definition usernames_distinct (d : db) : Prop :=
  forall p q a b,
    In p (profiles d) -> In q (profiles d) -> Profile.id p <> Profile.id q ->
    Profile.username p = Some a -> Profile.username q = Some b -> LOWER a <> LOWER b.

(** The foreign keys of messages and of profiles hold. *)
Definition messages_referenced (d : db) : bool :=
  forallb (fun m => Sql.references (map Conversation.id (conversations d))
                                   (Message.conversation_id m)
                    && Sql.references (map Profile.id (profiles d)) (Message.user_id m))
          (messages d).

Definition profiles_referenced (d : db) : bool :=
  forallb (fun p => existsb (String.eqb (Profile.id p)) (auth_users d)) (profiles d).

(** Every foreign key of the schema holds. *)
Definition references_hold (d : db) : bool :=
  participants_referenced d && messages_referenced d && profiles_referenced d.

(** ** Vocabulary of the properties of the components *)

(** The two decimal digits of a number below one hundred. *)
Definition two_digits (k : nat) : string :=
  String (ascii_of_nat (48 + k / 10)) (String (ascii_of_nat (48 + k mod 10)) EmptyString).

(** The character occurs in the string. *)
Fixpoint contains (c : ascii) (s : string) : bool :=
  match s with
  | EmptyString => false
  | String c' s' => Ascii.eqb c' c || contains c s'
  end.

(** The ids of the users selected in the side bar. *)
Definition selected_ids (st : Sidebar.t) : list uuid :=
  map Profile.id (Sidebar.selectedUsers st).

(** * Properties *)

Local Open Scope list_scope.

(** ** The error monad *)

Lemma bind_inr {A B : Type} (c : response A) (k : A -> response B) (b : B) :
  bind c k = inr b -> exists a, c = inr a /\ k a = inr b.
Proof.
  destruct c as [e | a]; simpl; intros H; [discriminate | eauto].
Qed.

Lemma bind_inl {A B : Type} (c : response A) (k : A -> response B) (e : error) :
  bind c k = inl e -> c = inl e \/ exists a, c = inr a /\ k a = inl e.
Proof.
  destruct c as [e' | a]; simpl; intros H; [left; congruence | right; eauto].
Qed.

Lemma guard_inr (b : bool) (e : error) (u : unit) :
  guard b e = inr u -> b = true.
Proof.
  destruct b; simpl; [reflexivity | discriminate].
Qed.

Lemma guard_inl (b : bool) (e e' : error) :
  guard b e = inl e' -> b = false /\ e' = e.
Proof.
  destruct b; simpl; [discriminate | intros H; split; congruence].
Qed.

(** Peel the binds of a statement that answered with rows. *)
Ltac unbind H :=
  repeat match type of H with
         | bind (guard _ _) _ = inr _ =>
             let u := fresh "u" in
             let G := fresh "G" in
             apply bind_inr in H; destruct H as (u & G & H); apply guard_inr in G
         | bind _ _ = inr _ =>
             let a := fresh "a" in
             let G := fresh "G" in
             apply bind_inr in H; destruct H as (a & G & H)
         end.

(** ** Usernames *)

Section Usernames.

Lemma bracket_order_irrelevant (c : ascii) :
  Regex.bracket_matches (Regex.bracket profiles_username_regex) c
  = Regex.bracket_matches (Regex.bracket spec_username_pattern) c.
Proof.
  unfold Regex.bracket_matches, profiles_username_regex, spec_username_pattern.
  cbn [existsb Regex.bracket].
  destruct (Regex.item_matches c (Regex.range "a" "z")),
           (Regex.item_matches c (Regex.range "A" "Z")); reflexivity.
Qed.

Lemma all_in_bracket_ext (b1 b2 : list Regex.bracket_item) :
  (forall c, Regex.bracket_matches b1 c = Regex.bracket_matches b2 c) ->
  forall s, Regex.all_in_bracket b1 s = Regex.all_in_bracket b2 s.
Proof.
  intros Hb s; induction s as [| c s IH]; simpl; [reflexivity |].
  rewrite Hb, IH; reflexivity.
Qed.

Lemma check_regex_is_spec_pattern (u : string) :
  Regex.matches profiles_username_regex u = Regex.matches spec_username_pattern u.
Proof.
  unfold Regex.matches.
  rewrite (all_in_bracket_ext _ _ bracket_order_irrelevant u); reflexivity.
Qed.

Lemma validateUsername_is_spec_pattern (u : string) :
  validateUsername u = None <-> Regex.matches spec_username_pattern u = true.
Proof.
  unfold validateUsername, Regex.matches.
  rewrite <- (all_in_bracket_ext _ _ bracket_order_irrelevant u).
  cbn [Regex.bracket Regex.at_least Regex.at_most profiles_username_regex
       spec_username_pattern].
  destruct (Regex.all_in_bracket _ u); cbn [andb negb].
  - destruct (Nat.leb_spec 1 (String.length u)), (Nat.ltb_spec (String.length u) 3),
      (Nat.ltb_spec 20 (String.length u)), (Nat.leb_spec 3 (String.length u)),
      (Nat.leb_spec (String.length u) 20); simpl; split; intros; try congruence; lia.
  - split; discriminate.
Qed.

Lemma check_username_unique_inr (d : db) (NEW NEW' : Profile.t) :
  check_username_unique d NEW = inr NEW' -> NEW' = NEW.
Proof.
  unfold check_username_unique.
  destruct (existsb _ _); intros H; [discriminate | congruence].
Qed.

Lemma profiles_insert_inr (d d' : db) (r : role) (now : timestamp) (v : Sql.profile_insert) :
  Sql.profiles_insert d r now v = inr d' ->
  d' = set_profiles (profiles d ++ [Sql.new_profile now v]) d
  /\ profiles_username_check (Sql.new_profile now v) = true.
Proof.
  unfold Sql.profiles_insert; intros H.
  unbind H. apply check_username_unique_inr in G; subst a.
  split; [congruence | assumption].
Qed.

Lemma profiles_update_inr (d d' : db) (r : role) (target : uuid) (v : Sql.profile_update) :
  Sql.profiles_update d r target v = inr d' ->
  d' = d
  \/ exists OLD,
      In OLD (profiles d)
      /\ Profile.id OLD = target
      /\ profiles_username_check (Sql.updated_profile v OLD) = true
      /\ d' = set_profiles
                (map (fun p => if String.eqb (Profile.id p) target
                               then Sql.updated_profile v OLD else p) (profiles d)) d.
Proof.
  unfold Sql.profiles_update.
  destruct (List.find _ (profiles d)) as [OLD |] eqn:F; intros H.
  - right; exists OLD. apply find_some in F as [Hin Hid].
    apply andb_true_iff in Hid as [Hid _]. apply String.eqb_eq in Hid.
    unbind H. apply check_username_unique_inr in G; subst a.
    repeat split; [assumption | assumption | assumption | congruence].
  - left; congruence.
Qed.

Lemma spec_pattern_of_check (p : Profile.t) (u : string) :
  profiles_username_check p = true -> Profile.username p = Some u ->
  Regex.matches spec_username_pattern u = true.
Proof.
  unfold profiles_username_check; intros H E; rewrite E in H.
  rewrite <- check_regex_is_spec_pattern; exact H.
Qed.

Lemma profiles_insert_valid (d d' : db) (r : role) (now : timestamp) (v : Sql.profile_insert) :
  Sql.profiles_insert d r now v = inr d' -> usernames_valid d -> usernames_valid d'.
Proof.
  intros H Hd. apply profiles_insert_inr in H as [-> Hc].
  intros p u Hin Hu. simpl in Hin. apply in_app_iff in Hin as [Hin | [<- | []]].
  - eapply Hd; eassumption.
  - eapply spec_pattern_of_check; eassumption.
Qed.

Lemma profiles_update_valid (d d' : db) (r : role) (target : uuid) (v : Sql.profile_update) :
  Sql.profiles_update d r target v = inr d' -> usernames_valid d -> usernames_valid d'.
Proof.
  intros H Hd. apply profiles_update_inr in H as [-> | (OLD & _ & _ & Hc & ->)]; [exact Hd |].
  intros p u Hin Hu. simpl in Hin. apply in_map_iff in Hin as (p0 & Hp & Hin0).
  destruct (String.eqb (Profile.id p0) target).
  - subst p. eapply spec_pattern_of_check; eassumption.
  - subst p0. eapply Hd; eassumption.
Qed.

(** C9: a username is accepted for persistence only if it matches
    [^[A-Za-z0-9_]{3,20}$].  [validateUsername] accepts exactly the strings
    of the pattern, before anything is sent; an insert or an update of a
    profile that succeeds and changes the table stores only usernames of
    the pattern and keeps every stored username in the pattern; a username
    outside the pattern makes the insert fail and the update change
    nothing. *)
Theorem username_pattern_enforced :
  (forall u, validateUsername u = None <-> Regex.matches spec_username_pattern u = true)
  /\ (forall d r now v d',
        Sql.profiles_insert d r now v = inr d' ->
        (forall u, Sql.pi_username v = Some u ->
                   Regex.matches spec_username_pattern u = true)
        /\ (usernames_valid d -> usernames_valid d'))
  /\ (forall d r target v d',
        Sql.profiles_update d r target v = inr d' ->
        (forall u, Sql.pu_username v = Some u ->
                   d' = d \/ Regex.matches spec_username_pattern u = true)
        /\ (usernames_valid d -> usernames_valid d'))
  /\ (forall u, Regex.matches spec_username_pattern u = false ->
        (forall d r now v, Sql.pi_username v = Some u ->
                           exists e, Sql.profiles_insert d r now v = inl e)
        /\ (forall d r target v, Sql.pu_username v = Some u ->
                                 after d (Sql.profiles_update d r target v) = d)).
Proof.
  split; [exact validateUsername_is_spec_pattern |].
  split; [| split].
  - intros d r now v d' H; split.
    + intros u Hu. apply profiles_insert_inr in H as [_ Hc].
      eapply spec_pattern_of_check; [exact Hc | exact Hu].
    + eapply profiles_insert_valid; eassumption.
  - intros d r target v d' H; split.
    + intros u Hu.
      destruct (profiles_update_inr _ _ _ _ _ H) as [-> | (OLD & _ & _ & Hc & _)];
        [left; reflexivity | right].
      eapply spec_pattern_of_check; [exact Hc |].
      unfold Sql.updated_profile; simpl; rewrite Hu; reflexivity.
    + eapply profiles_update_valid; eassumption.
  - intros u Hno; split.
    + intros d r now v Hu.
      destruct (Sql.profiles_insert d r now v) as [e | d'] eqn:H; [eauto |].
      apply profiles_insert_inr in H as [_ Hc].
      rewrite (spec_pattern_of_check _ u Hc Hu) in Hno; discriminate.
    + intros d r target v Hu.
      destruct (Sql.profiles_update d r target v) as [e | d'] eqn:H; [reflexivity |].
      destruct (profiles_update_inr _ _ _ _ _ H) as [-> | (OLD & _ & _ & Hc & _)];
        [reflexivity |].
      assert (Regex.matches spec_username_pattern u = true) as Hyes.
      { eapply spec_pattern_of_check; [exact Hc |].
        unfold Sql.updated_profile; simpl; rewrite Hu; reflexivity. }
      rewrite Hyes in Hno; discriminate.
Qed.

(** The owner of the tables stores the profile of "D" under "dave_42",
    which the pattern accepts. *)
Lemma username_pattern_enforced_witness :
  Regex.matches spec_username_pattern "dave_42" = true.
Proof.
  destruct username_pattern_enforced as (_ & H & _).
  destruct (H Sample.d0 table_owner 5 (Sql.mk_profile_insert "D" (Some "dave_42") None)
              (set_profiles (profiles Sample.d0
                             ++ [Sql.new_profile 5 (Sql.mk_profile_insert "D" (Some "dave_42") None)])
                            Sample.d0)) as [Hu _].
  - vm_compute; reflexivity.
  - apply Hu; reflexivity.
Defined.

End Usernames.

(** ** Uniqueness of usernames *)

Section Uniqueness.

Lemma check_username_unique_conflict (d : db) (NEW q : Profile.t) (u uq : string) :
  In q (profiles d) ->
  Profile.username q = Some uq ->
  Profile.username NEW = Some u ->
  LOWER u = LOWER uq ->
  Profile.id NEW <> Profile.id q ->
  check_username_unique d NEW = inl (raise_exception "Username already exists").
Proof.
  intros Hin Hq Hn Hl Hid. unfold check_username_unique.
  assert (existsb (fun p => sql_eq (option_map LOWER (Profile.username p))
                                   (option_map LOWER (Profile.username NEW))
                            && negb (String.eqb (Profile.id p) (Profile.id NEW)))
                  (profiles d) = true) as ->; [| reflexivity].
  apply existsb_exists. exists q; split; [exact Hin |].
  rewrite Hq, Hn; simpl. rewrite Hl, String.eqb_refl; simpl.
  apply negb_true_iff, String.eqb_neq. congruence.
Qed.

(** C2: for two distinct profiles, an insert or an update that gives one
    of them a username equal, case-insensitively, to the username the other
    has, fails with the error of [check_username_unique], whose message is
    "Username already exists" and which is none of the server's own
    integrity or policy errors; the database after the failed statement is
    the database before it. *)
Theorem username_conflict_rejected (d : db) (q : Profile.t) (u uq : string) :
  In q (profiles d) ->
  Profile.username q = Some uq ->
  LOWER u = LOWER uq ->
  let e := raise_exception "Username already exists" in
  (forall r now v,
      Sql.pi_username v = Some u -> Sql.pi_id v <> Profile.id q ->
      Sql.profiles_insert d r now v = inl e
      /\ after d (Sql.profiles_insert d r now v) = d)
  /\ (forall r p v,
        In p (profiles d) -> Profile.id p <> Profile.id q ->
        Sql.pu_username v = Some u ->
        Policy.permits r (fun uid => Policy.profiles_update uid p) = true ->
        Sql.profiles_update d r (Profile.id p) v = inl e
        /\ after d (Sql.profiles_update d r (Profile.id p) v) = d)
  /\ error_message e = "Username already exists"
  /\ (forall c, e <> unique_violation c /\ e <> check_violation c
                /\ e <> foreign_key_violation c /\ e <> insufficient_privilege c).
Proof.
  intros Hq Huq Hl e. split; [| split; [| split]].
  - intros r now v Hu Hid.
    assert (Sql.profiles_insert d r now v = inl e) as H.
    { unfold Sql.profiles_insert.
      rewrite (check_username_unique_conflict d _ q u uq); auto. }
    rewrite H; split; reflexivity.
  - intros r p v Hp Hid Hu Hr.
    assert (Sql.profiles_update d r (Profile.id p) v = inl e) as H.
    { unfold Sql.profiles_update.
      destruct (List.find _ (profiles d)) as [OLD |] eqn:F.
      - apply find_some in F as [_ F]. apply andb_true_iff in F as [F _].
        apply String.eqb_eq in F.
        rewrite (check_username_unique_conflict d _ q u uq); auto.
        + simpl; rewrite Hu; reflexivity.
        + simpl; congruence.
      - exfalso. apply (find_none _ _ F) in Hp.
        rewrite String.eqb_refl, Hr in Hp; discriminate. }
    rewrite H; split; reflexivity.
  - reflexivity.
  - intros c; repeat split; discriminate.
Qed.

(** "D" signing up as "ALICE", and Bob renaming himself "aLiCe", both run
    into Alice. *)
Lemma username_conflict_rejected_witness :
  Sql.profiles_insert Sample.d0 table_owner 5 (Sql.mk_profile_insert "D" (Some "ALICE") None)
  = inl (raise_exception "Username already exists")
  /\ Sql.profiles_update Sample.d0 (authenticated "B") "B"
       (Sql.mk_profile_update (Some "aLiCe") None None None)
     = inl (raise_exception "Username already exists").
Proof.
  assert (In Sample.alice (profiles Sample.d0)) as Hq by (simpl; auto).
  split.
  - destruct (username_conflict_rejected Sample.d0 Sample.alice "ALICE" "Alice" Hq
                eq_refl eq_refl) as (H & _).
    apply (H table_owner 5 (Sql.mk_profile_insert "D" (Some "ALICE") None)).
    + reflexivity.
    + simpl; discriminate.
  - destruct (username_conflict_rejected Sample.d0 Sample.alice "aLiCe" "Alice" Hq
                eq_refl eq_refl) as (_ & H & _).
    apply (H (authenticated "B") Sample.bob
             (Sql.mk_profile_update (Some "aLiCe") None None None)).
    + simpl; auto.
    + simpl; discriminate.
    + reflexivity.
    + reflexivity.
Defined.

End Uniqueness.

(** ** The policies and the statements of a signed-in user *)

Section Policies.




End Policies.

(** ** The message channel *)

Section Channel.

(** What the policies of the first migration do to the statements of a
    signed-in user: conversation_participants is read by its own SELECT
    policy, so every statement that gets that policy put in is refused. *)
Lemma messages_insert_refused (d : db) (uid : uuid) (now : timestamp) (fresh : uuid)
    (v : Message.draft) :
  Sql.messages_insert d (authenticated uid) now fresh v = inl policy_recursion.
Proof. reflexivity. Qed.

Lemma select_messages_refused (d : db) (uid cid : uuid) :
  Select.select_messages d (authenticated uid) cid = inl policy_recursion.
Proof. reflexivity. Qed.

Lemma messages_insert_inr (d d' : db) (r : role) (now : timestamp) (fresh : uuid)
    (v : Message.draft) (m : Message.t) :
  Sql.messages_insert d r now fresh v = inr (d', m) ->
  r = table_owner
  /\ m = Sql.new_message now fresh v
  /\ existsb (fun m0 => String.eqb (Message.id m0) (Message.id m)) (messages d) = false
  /\ Sql.references (map Conversation.id (conversations d)) (Message.conversation_id m) = true
  /\ Sql.references (map Profile.id (profiles d)) (Message.user_id m) = true
  /\ d' = set_conversations
            (map (fun c => if sql_eq (Some (Conversation.id c)) (Message.conversation_id m)
                           then Conversation.set_updated_at now c else c)
                 (conversations d))
            (set_messages (messages d ++ [m]) d).
Proof.
  destruct r as [uid |]; [rewrite messages_insert_refused; discriminate |].
  unfold Sql.messages_insert, update_conversation_timestamp; simpl Rls.prepare.
  intros H. unbind H.
  injection H as H1 H2. subst m a0.
  cbn [bind Policy.permits] in G5. injection G5 as <-.
  apply negb_true_iff in G2.
  repeat split; auto.
Qed.

Lemma messages_after_insert (d d' : db) (r : role) (now : timestamp) (fresh : uuid)
    (v : Message.draft) (m : Message.t) :
  Sql.messages_insert d r now fresh v = inr (d', m) ->
  messages d' = messages d ++ [m]
  /\ conversation_participants d' = conversation_participants d
  /\ profiles d' = profiles d.
Proof.
  intros H. apply messages_insert_inr in H as (_ & _ & _ & _ & _ & ->).
  repeat split; reflexivity.
Qed.





#[local] Instance created_le_transitive : Transitive Select.created_le.
Proof. intros a b c; unfold Select.created_le; lia. Qed.

#[local] Instance created_le_total : Total Select.created_le.
Proof. intros a b; unfold Select.created_le; lia. Qed.

Lemma Permutation_filter {A : Type} (f : A -> bool) (l l' : list A) :
  Permutation l l' -> Permutation (List.filter f l) (List.filter f l').
Proof.
  induction 1 as [| x l l' _ IH | x y l | l l' l'' _ IH1 _ IH2]; simpl.
  - constructor.
  - destruct (f x); [constructor |]; exact IH.
  - destruct (f x), (f y); try reflexivity. constructor.
  - etransitivity; eassumption.
Qed.

Lemma occurrences_Permutation (mid : uuid) (l l' : list Message.t) :
  Permutation l l' -> occurrences mid l = occurrences mid l'.
Proof.
  intros H. unfold occurrences.
  apply Permutation_length, Permutation_filter, H.
Qed.

Lemma occurrences_absent (mid : uuid) (l : list Message.t) :
  existsb (fun m => String.eqb (Message.id m) mid) l = false -> occurrences mid l = 0%nat.
Proof.
  unfold occurrences. induction l as [| m l IH]; simpl; [reflexivity |].
  intros H. apply orb_false_iff in H as [H1 H2]. rewrite H1. exact (IH H2).
Qed.

Lemma occurrences_filter_le (mid : uuid) (f : Message.t -> bool) (l : list Message.t) :
  (occurrences mid (List.filter f l) <= occurrences mid l)%nat.
Proof.
  unfold occurrences. induction l as [| m l IH]; simpl; [lia |].
  destruct (f m), (String.eqb (Message.id m) mid) eqn:E; simpl; rewrite ?E; simpl; lia.
Qed.

Lemma occurrences_app (mid : uuid) (l l' : list Message.t) :
  occurrences mid (l ++ l') = (occurrences mid l + occurrences mid l')%nat.
Proof.
  unfold occurrences. rewrite List.filter_app, length_app. reflexivity.
Qed.

(** What the query of [fetchMessages] answers to a client that is not
    subject to the policies. *)
Lemma select_messages_owner (d : db) (cid : uuid) :
  exists data,
    Select.select_messages d table_owner cid = inr data
    /\ Permutation data (messages_of d cid)
    /\ StronglySorted Select.created_le data.
Proof.
  eexists; split; [reflexivity |]. split.
  - rewrite merge_sort_Permutation. unfold messages_of. reflexivity.
  - apply StronglySorted_merge_sort; typeclasses eauto.
Qed.

(** C3, as the code has it, for a client [supabase] whose insert the server
    accepts: [sendMessage] resolves (with no value) after appending the
    stored row to the list in memory; the row has content X, and its id and
    creation time are the draft's where the draft gives them and the
    server's [gen_random_uuid()] and [now()] where it does not.  A
    [fetchMessages] of that conversation by the same client then holds all
    the messages of the conversation, in ascending order of creation time,
    and the stored row is among them exactly once. *)
Theorem send_then_fetch (d : db) (r : role) (now : timestamp) (fresh : uuid)
    (v : Message.draft) (s : MessageStore.t) (cid : uuid) (x : string)
    (d1 : db) (row : Message.t) :
  Message.d_conversation_id v = Some cid ->
  Message.d_content v = Some x ->
  Sql.messages_insert d r now fresh v = inr (d1, row) ->
  let s1 := MessageStore.mk (MessageStore.messages s ++ [row]) (MessageStore.loading s)
                            (MessageStore.error s) in
  let s2 := MessageStore.fetchMessages_as d1 r cid s1 in
  MessageStore.sendMessage_as d r now fresh v s = (d1, s1, resolved tt)
  /\ Message.content row = Some x
  /\ Message.id row = match Message.d_id v with Some i => i | None => fresh end
  /\ Message.created_at row = match Message.d_created_at v with Some t => t | None => now end
  /\ Permutation (MessageStore.messages s2) (messages_of d1 cid)
  /\ StronglySorted Select.created_le (MessageStore.messages s2)
  /\ In row (MessageStore.messages s2)
  /\ occurrences (Message.id row) (MessageStore.messages s2) = 1%nat
  /\ MessageStore.error s2 = None
  /\ MessageStore.loading s2 = false.
Proof.
  intros Hc Hx H s1 s2.
  pose proof (messages_insert_inr _ _ _ _ _ _ _ H) as (Hr & Hrow & Hfresh & _ & _ & _).
  pose proof (messages_after_insert _ _ _ _ _ _ _ H) as (Hm & _ & _).
  assert (Message.conversation_id row = Some cid) as Hrc.
  { rewrite Hrow. simpl. exact Hc. }
  destruct (select_messages_owner d1 cid) as (data & Hsel & Hperm & Hsort).
  rewrite <- Hr in Hsel.
  assert (MessageStore.messages s2 = data) as Hs2.
  { unfold s2, MessageStore.fetchMessages_as. rewrite Hsel. reflexivity. }
  assert (messages_of d1 cid = messages_of d cid ++ [row]) as Hof.
  { unfold messages_of. rewrite Hm, List.filter_app. simpl.
    rewrite Hrc. simpl. rewrite String.eqb_refl. reflexivity. }
  split.
  { unfold MessageStore.sendMessage_as. rewrite H. reflexivity. }
  split; [rewrite Hrow; exact Hx |].
  split; [rewrite Hrow; reflexivity |].
  split; [rewrite Hrow; reflexivity |].
  rewrite Hs2.
  split; [exact Hperm |].
  split; [exact Hsort |].
  split.
  { apply (Permutation_in row (Permutation_sym Hperm)).
    rewrite Hof. apply in_app_iff. right. simpl; auto. }
  split.
  { rewrite (occurrences_Permutation _ _ _ Hperm), Hof, occurrences_app.
    assert (occurrences (Message.id row) (messages_of d cid) = 0%nat) as ->.
    { pose proof (occurrences_filter_le (Message.id row)
                    (fun m => sql_eq (Message.conversation_id m) (Some cid)) (messages d)).
      rewrite (occurrences_absent _ _ Hfresh) in H0. unfold messages_of. lia. }
    unfold occurrences. simpl. rewrite String.eqb_refl. reflexivity. }
  unfold s2, MessageStore.fetchMessages_as. rewrite Hsel. split; reflexivity.
Qed.

(** The message of [handleSend] for Alice, sent and fetched by a client
    that is not subject to the policies. *)
Lemma send_then_fetch_witness :
  MessageStore.sendMessage_as Sample.d1 table_owner 20 "m1"
    (ChatWindow.text_message "A" "c1" "hi" 100) MessageStore.init
  = (Sample.d2, MessageStore.mk [Sample.m1] false None, resolved tt)
  /\ occurrences "m1"
       (MessageStore.messages
          (MessageStore.fetchMessages_as Sample.d2 table_owner "c1"
             (MessageStore.mk [Sample.m1] false None))) = 1%nat.
Proof.
  destruct (send_then_fetch Sample.d1 table_owner 20 "m1"
              (ChatWindow.text_message "A" "c1" "hi" 100)
              MessageStore.init "c1" "hi" Sample.d2 Sample.m1
              eq_refl eq_refl eq_refl) as (H1 & _ & _ & _ & _ & _ & _ & H2 & _).
  split; [exact H1 | exact H2].
Defined.

(** C3 as stated fails.  Alice, a participant of "c1", sends "hi" through
    [handleSend]: the insert is refused, nothing is stored, and her
    [fetchMessages] of "c1" is refused too and holds no message; and
    [sendMessage] resolves with no value, not with a row.  Where the insert
    of that same draft is accepted, for a client not subject to the
    policies at server time 20, the stored row carries the creation time
    100 of Alice's clock. *)
Lemma sent_message_not_fetched :
  let sent := ChatWindow.handleSend Sample.d1 "A" "c1" "hi" 100 20 "m1" MessageStore.init in
  is_participant Sample.d1 "c1" "A" = true
  /\ sent = (Sample.d1, MessageStore.mk [] false (Some (error_message policy_recursion)))
  /\ MessageStore.fetchMessages (fst sent) "A" "c1" (snd sent)
     = MessageStore.mk [] false (Some (error_message policy_recursion))
  /\ snd (MessageStore.sendMessage Sample.d1 "A" 20 "m1"
            (ChatWindow.text_message "A" "c1" "hi" 100) MessageStore.init)
     = resolved tt
  /\ Sql.messages_insert Sample.d1 table_owner 20 "m1"
       (ChatWindow.text_message "A" "c1" "hi" 100)
     = inr (Sample.d2, Sample.m1)
  /\ Message.created_at Sample.m1 = 100
  /\ Message.created_at Sample.m1 <> 20.
Proof.
  repeat split; try (vm_compute; reflexivity).
  vm_compute; discriminate.
Qed.

End Channel.

(** ** The directory of conversations *)

Section Directory.

(** The query of [fetchConversations] has the SELECT policy of conversations
    put in, which reads conversation_participants, whose own SELECT policy
    reads conversation_participants again. *)
Lemma select_conversations_refused (d : db) (uid : uuid) :
  Select.select_conversations d (authenticated uid) = inl policy_recursion.
Proof. reflexivity. Qed.

Lemma fetchConversations_refused (d : db) (uid : uuid) (s : ConversationStore.t) :
  ConversationStore.fetchConversations d (Some uid) s
  = ConversationStore.mk (ConversationStore.conversations s) false
      (Some (error_message policy_recursion)).
Proof. reflexivity. Qed.

(** C4 fails on the code: the query of [fetchConversations] is refused for
    every signed-in user, so the store keeps the list it had and [error]
    is set.  A participant U of a stored conversation C, fetching into the
    empty store the application starts with, does not get C. *)
Theorem participant_not_listed (d : db) (uid : uuid) (c : Conversation.t)
    (s : ConversationStore.t) :
  In c (conversations d) ->
  is_participant d (Conversation.id c) uid = true ->
  ConversationStore.fetchConversations d (Some uid) s
  = ConversationStore.mk (ConversationStore.conversations s) false
      (Some (error_message policy_recursion))
  /\ ~ listed (ConversationStore.fetchConversations d (Some uid) ConversationStore.init)
         (Conversation.id c).
Proof.
  intros _ _. split; [reflexivity |].
  rewrite fetchConversations_refused. intros (v & [] & _).
Qed.

(** Alice is a participant of "c1", and "c1" is not in her directory. *)
Lemma participant_not_listed_witness :
  is_participant Sample.d3 "c1" "A" = true
  /\ ConversationStore.fetchConversations Sample.d3 (Some "A") ConversationStore.init
     = ConversationStore.mk [] false (Some (error_message policy_recursion))
  /\ ~ listed (ConversationStore.fetchConversations Sample.d3 (Some "A")
                 ConversationStore.init) "c1".
Proof.
  split; [reflexivity |].
  apply (participant_not_listed Sample.d3 "A" (Conversation.mk "c1" None false 10 30)
           ConversationStore.init).
  - simpl; auto.
  - reflexivity.
Defined.


End Directory.

(** ** The update timestamp of a conversation *)

Section Timestamp.

Lemma find_touch (now : timestamp) (target cid : uuid) (cs : list Conversation.t) :
  List.find (fun c => String.eqb (Conversation.id c) cid)
    (map (fun c => if String.eqb (Conversation.id c) target
                   then Conversation.set_updated_at now c else c) cs)
  = option_map (fun c => if String.eqb (Conversation.id c) target
                         then Conversation.set_updated_at now c else c)
      (List.find (fun c => String.eqb (Conversation.id c) cid) cs).
Proof.
  induction cs as [| c cs IH]; simpl; [reflexivity |].
  destruct (String.eqb (Conversation.id c) target) eqn:E;
    unfold Conversation.set_updated_at at 1; simpl;
    destruct (String.eqb (Conversation.id c) cid); simpl; rewrite ?E; auto.
Qed.

Lemma find_is_some_of_existsb {A : Type} (f : A -> bool) (l : list A) :
  existsb f l = true -> exists x, List.find f l = Some x /\ f x = true.
Proof.
  induction l as [| a l IH]; simpl; [discriminate |].
  destruct (f a) eqn:E; simpl; [eauto | exact IH].
Qed.

Lemma find_app_some {A : Type} (f : A -> bool) (l l' : list A) (x : A) :
  List.find f l = Some x -> List.find f (l ++ l') = Some x.
Proof.
  induction l as [| a l IH]; simpl; [discriminate |].
  destruct (f a); auto.
Qed.

(** The conversation a message insert touches. *)
Lemma updated_at_after_insert (d d' : db) (r : role) (now : timestamp) (fresh : uuid)
    (v : Message.draft) (m : Message.t) (cid : uuid) :
  Sql.messages_insert d r now fresh v = inr (d', m) ->
  Message.conversation_id m = Some cid ->
  updated_at_of d' cid = Some now
  /\ (forall c, In c (conversations d') -> Conversation.id c = cid ->
                Conversation.updated_at c = now).
Proof.
  intros H Hc. apply messages_insert_inr in H as (_ & _ & _ & Hfk & _ & ->).
  rewrite Hc in *. simpl in Hfk. split.
  - unfold updated_at_of. simpl. rewrite find_touch.
    assert (existsb (fun c => String.eqb (Conversation.id c) cid) (conversations d) = true) as Hex.
    { apply existsb_exists in Hfk as (i & Hi & E). apply in_map_iff in Hi as (c & <- & Hin).
      apply existsb_exists. exists c. split; [exact Hin |].
      rewrite String.eqb_sym. exact E. }
    apply find_is_some_of_existsb in Hex as (c & -> & E). simpl. rewrite E. reflexivity.
  - intros c Hin Hid. simpl in Hin.
    apply in_map_iff in Hin as (c0 & <- & _). simpl in *.
    destruct (String.eqb (Conversation.id c0) cid) eqn:E; [reflexivity |].
    apply String.eqb_neq in E. contradiction.
Qed.

(** A message insert leaves the timestamps of the other conversations. *)
Lemma updated_at_other_insert (d d' : db) (r : role) (now : timestamp) (fresh : uuid)
    (v : Message.draft) (m : Message.t) (cid : uuid) :
  Sql.messages_insert d r now fresh v = inr (d', m) ->
  Message.conversation_id m <> Some cid ->
  updated_at_of d' cid = updated_at_of d cid.
Proof.
  intros H Hc. apply messages_insert_inr in H as (_ & _ & _ & _ & _ & ->).
  unfold updated_at_of. simpl.
  destruct (Message.conversation_id m) as [target |] eqn:Em.
  - rewrite find_touch.
    destruct (List.find _ (conversations d)) as [c |] eqn:F; simpl; [| reflexivity].
    apply find_some in F as [_ F]. apply String.eqb_eq in F.
    destruct (String.eqb (Conversation.id c) target) eqn:E; [| reflexivity].
    apply String.eqb_eq in E. congruence.
  - simpl. rewrite map_id. reflexivity.
Qed.

(** C6, as the code has it: a message insert the server accepts into the
    conversation C sets the update timestamp of C to the current time, for
    every row of C; no other statement changes the update timestamp of a
    conversation that exists, nor does a message insert into another
    conversation; and a message insert of a role subject to the policies,
    which the server refuses, changes no timestamp. *)
Theorem conversation_timestamp_maintained (d : db) (r : role) (now : timestamp) :
  (forall fresh v d' m cid,
      Sql.messages_insert d r now fresh v = inr (d', m) ->
      Message.conversation_id m = Some cid ->
      updated_at_of d' cid = Some now
      /\ (forall c, In c (conversations d') -> Conversation.id c = cid ->
                    Conversation.updated_at c = now))
  /\ (forall st cid ts,
        updated_at_of d cid = Some ts ->
        (forall fresh v, st = insert_message fresh v ->
                         Message.d_conversation_id v <> Some cid) ->
        updated_at_of (execute d r now st) cid = Some ts)
  /\ (forall fresh v cid,
        r <> table_owner ->
        updated_at_of (execute d r now (insert_message fresh v)) cid = updated_at_of d cid).
Proof.
  split; [| split].
  - intros fresh v d' m cid H Hc.
    exact (updated_at_after_insert _ _ _ _ _ _ _ _ H Hc).
  - intros st cid ts Hts Hst. destruct st as [v | target v | fresh g | rows | fresh v]; simpl.
    + destruct (Sql.profiles_insert d r now v) as [e | d'] eqn:H; simpl; [exact Hts |].
      apply profiles_insert_inr in H as [-> _]. exact Hts.
    + destruct (Sql.profiles_update d r target v) as [e | d'] eqn:H; simpl; [exact Hts |].
      apply profiles_update_inr in H as [-> | (OLD & _ & _ & _ & ->)]; exact Hts.
    + destruct (Sql.conversations_insert d r now fresh g) as [e | [d' c]] eqn:H; simpl;
        [exact Hts |].
      unfold Sql.conversations_insert in H. unbind H. injection H as <- _.
      unfold updated_at_of in *. simpl.
      destruct (List.find _ (conversations d)) as [c0 |] eqn:F; [| discriminate].
      rewrite (find_app_some _ _ _ _ F). exact Hts.
    + destruct (Sql.conversation_participants_insert d r now rows) as [e | d'] eqn:H; simpl;
        [exact Hts |].
      unfold Sql.conversation_participants_insert in H. unbind H. injection H as <-.
      exact Hts.
    + destruct (Sql.messages_insert d r now fresh v) as [e | [d' m]] eqn:H; simpl;
        [exact Hts |].
      rewrite (updated_at_other_insert _ _ _ _ _ _ _ cid H); [exact Hts |].
      pose proof (messages_insert_inr _ _ _ _ _ _ _ H) as (_ & -> & _). simpl.
      exact (Hst fresh v eq_refl).
  - intros fresh v cid Hr. destruct r as [uid |]; [reflexivity | contradiction].
Qed.

(** Stored by the owner of the tables at time 30, the second message of
    the sample moves "c1" to 30; the profile of "D" does not move it; and
    Bob's own insert, refused, leaves it at 20. *)
Lemma conversation_timestamp_maintained_witness :
  updated_at_of Sample.d3 "c1" = Some 30
  /\ updated_at_of
       (execute Sample.d2 table_owner 40
          (insert_profile (Sql.mk_profile_insert "D" (Some "dave") None))) "c1"
     = Some 20
  /\ updated_at_of
       (execute Sample.d2 (authenticated "B") 30
          (insert_message "m2" (ChatWindow.text_message "B" "c1" "hi" 30))) "c1"
     = Some 20.
Proof.
  split; [| split].
  - destruct (conversation_timestamp_maintained Sample.d2 table_owner 30) as (H & _).
    destruct (H "m2" (ChatWindow.text_message "B" "c1" "hi" 30)
                Sample.d3 Sample.m2 "c1" eq_refl eq_refl) as (H1 & _).
    exact H1.
  - destruct (conversation_timestamp_maintained Sample.d2 table_owner 40) as (_ & H & _).
    apply H.
    + reflexivity.
    + intros fresh v E. discriminate.
  - destruct (conversation_timestamp_maintained Sample.d2 (authenticated "B") 30)
      as (_ & _ & H).
    rewrite H; [reflexivity | discriminate].
Defined.

(** C6 as stated fails on the bound.  The owner of the tables stores, at
    server time 20, the message [handleSend] makes for Alice, with the
    creation time 100 of her clock; when the message for Bob goes in at
    server time 30 the update timestamp of "c1" becomes 30, earlier than
    100, the creation time of the most recent message "c1" held before. *)
Lemma timestamp_behind_latest_message :
  Sql.messages_insert Sample.d1 table_owner 20 "m1" (ChatWindow.text_message "A" "c1" "hi" 100)
  = inr (Sample.d2, Sample.m1)
  /\ Sql.messages_insert Sample.d2 table_owner 30 "m2"
       (ChatWindow.text_message "B" "c1" "hi" 30)
     = inr (Sample.d3, Sample.m2)
  /\ latest_created_at Sample.d2 "c1" = Some 100
  /\ updated_at_of Sample.d3 "c1" = Some 30
  /\ 30 < 100.
Proof.
  repeat split; vm_compute; reflexivity.
Qed.

End Timestamp.

(** ** Creating a conversation *)

Section Creation.

(** Returning the inserted row puts the insert under the SELECT policy of
    conversations, which reads conversation_participants. *)
Lemma conversations_insert_refused (d : db) (uid : uuid) (now : timestamp) (fresh : uuid)
    (g : bool) :
  Sql.conversations_insert d (authenticated uid) now fresh g = inl policy_recursion.
Proof. reflexivity. Qed.

Lemma conversations_insert_inr (d d1 : db) (r : role) (now : timestamp) (fresh : uuid)
    (g : bool) (c : Conversation.t) :
  Sql.conversations_insert d r now fresh g = inr (d1, c) ->
  r = table_owner
  /\ c = Conversation.mk fresh None g now now
  /\ existsb (fun c0 => String.eqb (Conversation.id c0) fresh) (conversations d) = false
  /\ d1 = set_conversations (conversations d ++ [c]) d.
Proof.
  destruct r as [uid |]; [rewrite conversations_insert_refused; discriminate |].
  unfold Sql.conversations_insert. intros H. unbind H.
  injection H as <- <-. apply negb_true_iff in G2. auto.
Qed.

Lemma participants_rows_inr (r : role) (now : timestamp) (rows : list (uuid * uuid)) :
  forall tbl tbl',
    Sql.conversation_participants_rows r now rows tbl = inr tbl' ->
    tbl' = tbl ++ map (fun row => Participant.mk (fst row) (snd row) now) rows
    /\ (forall row, In row rows ->
                    existsb (fun cp => String.eqb (Participant.conversation_id cp) (fst row)
                                       && String.eqb (Participant.user_id cp) (snd row)) tbl
                    = false)
    /\ List.NoDup rows.
Proof.
  induction rows as [| [cid uid] rest IH]; intros tbl tbl' H; simpl in H.
  - injection H as <-. rewrite app_nil_r. repeat split; [intros row [] | constructor].
  - unbind H. apply negb_true_iff in G0.
    apply IH in H as (-> & Hrest & Hnd).
    split; [simpl; rewrite <- app_assoc; reflexivity |]. split.
    + intros row [<- | Hin]; [exact G0 |].
      specialize (Hrest row Hin). rewrite existsb_app in Hrest.
      apply orb_false_iff in Hrest as [Hrest _]. exact Hrest.
    + constructor; [| exact Hnd]. intros Hin.
      specialize (Hrest _ Hin). rewrite existsb_app in Hrest.
      apply orb_false_iff in Hrest as [_ Hrest]. simpl in Hrest.
      rewrite !String.eqb_refl in Hrest. discriminate.
Qed.

Lemma participants_insert_inr (d d2 : db) (r : role) (now : timestamp)
    (rows : list (uuid * uuid)) :
  Sql.conversation_participants_insert d r now rows = inr d2 ->
  d2 = set_conversation_participants
         (conversation_participants d
          ++ map (fun row => Participant.mk (fst row) (snd row) now) rows) d
  /\ List.NoDup rows.
Proof.
  unfold Sql.conversation_participants_insert. intros H. unbind H.
  apply participants_rows_inr in G as (-> & _ & Hnd). injection H as <-. auto.
Qed.

(** What [createConversation] does for a signed-in user: its first
    statement is refused, so nothing is written and the promise rejects. *)
Lemma createConversation_signed_in (d : db) (caller : uuid) (now : timestamp)
    (fresh : uuid) (now' : timestamp) (participants : list uuid) (s : ConversationStore.t) :
  ConversationStore.createConversation d (Some caller) now fresh now' participants s
  = (d,
     ConversationStore.mk (ConversationStore.conversations s) (ConversationStore.loading s)
       (Some (error_message policy_recursion)),
     rejected policy_recursion).
Proof. reflexivity. Qed.

(** C7 fails on the code.  Alice creates a conversation with Bob, and one
    with Bob and Carol: the claim has the first yield a conversation with
    the group flag false and the second one with the flag true.  On the
    code both calls reject, the insert of the conversation being refused,
    and no conversation and no membership is stored; so does the call that
    passes Alice's own id along with Bob's. *)
Theorem createConversation_pair_and_group_rejected :
  let rejects (participants : list uuid) (fresh : uuid) :=
    ConversationStore.createConversation Sample.d0 (Some "A") 10 fresh 11 participants
      ConversationStore.init
    = (Sample.d0,
       ConversationStore.mk [] false (Some (error_message policy_recursion)),
       rejected policy_recursion) in
  rejects ["B"] "c1"
  /\ rejects ["B"; "C"] "c2"
  /\ rejects ["A"; "B"] "c3"
  /\ conversations Sample.d0 = []
  /\ conversation_participants Sample.d0 = [].
Proof.
  repeat split.
Qed.

(** C8: [createConversation] rejects, and returns no identifier, when no
    user is signed in and when the insert of the conversation is refused;
    for a signed-in user that insert is always refused, so the insert of
    the participants is never reached.  Every call rejects; the database
    is as it was, so no conversation is left without its participants; the
    list of conversations in the store is as it was, [error] holds the
    message, and the directory every user fetches afterwards is the one
    that user would have fetched before. *)
Theorem createConversation_failure (d : db) (session : option uuid) (now : timestamp)
    (fresh : uuid) (now' : timestamp) (participants : list uuid) (s : ConversationStore.t) :
  let result :=
    ConversationStore.createConversation d session now fresh now' participants s in
  let d' := fst (fst result) in
  let s' := snd (fst result) in
  (session = None -> snd result = rejected (js_error "No user found"))
  /\ (forall caller e,
        session = Some caller ->
        Sql.conversations_insert d (authenticated caller) now fresh
          (2 <? length (participants ++ [caller]))%nat = inl e ->
        snd result = rejected e)
  /\ (exists e,
        snd result = rejected e
        /\ ConversationStore.error s' = Some (error_message e))
  /\ d' = d
  /\ ConversationStore.conversations s' = ConversationStore.conversations s
  /\ (forall u st,
        ConversationStore.fetchConversations d' (Some u) st
        = ConversationStore.fetchConversations d (Some u) st).
Proof.
  intros result d' s'. unfold d', s', result. clear d' s' result.
  destruct session as [caller |].
  - rewrite createConversation_signed_in. simpl.
    split; [discriminate |]. split.
    + intros c e [= <-]. rewrite conversations_insert_refused. intros [= <-]. reflexivity.
    + split; [exists policy_recursion; split; reflexivity |]. repeat split.
  - simpl. split; [reflexivity |]. split; [discriminate |].
    split; [exists (js_error "No user found"); split; reflexivity |]. repeat split.
Qed.

(** With nobody signed in, and with Alice signed in: both calls reject and
    leave the database of the sample as it was. *)
Lemma createConversation_failure_witness :
  snd (ConversationStore.createConversation Sample.d1 None 50 "c9" 51 ["B"]
         ConversationStore.init)
  = rejected (js_error "No user found")
  /\ snd (ConversationStore.createConversation Sample.d1 (Some "A") 50 "c9" 51 ["B"]
            ConversationStore.init)
     = rejected policy_recursion
  /\ fst (fst (ConversationStore.createConversation Sample.d1 (Some "A") 50 "c9" 51 ["B"]
                 ConversationStore.init))
     = Sample.d1.
Proof.
  split; [| split].
  - exact (proj1 (createConversation_failure Sample.d1 None 50 "c9" 51 ["B"]
                    ConversationStore.init) eq_refl).
  - exact (proj1 (proj2 (createConversation_failure Sample.d1 (Some "A") 50 "c9" 51 ["B"]
                           ConversationStore.init))
             "A" policy_recursion eq_refl eq_refl).
  - exact (proj1 (proj2 (proj2 (proj2
             (createConversation_failure Sample.d1 (Some "A") 50 "c9" 51 ["B"]
                ConversationStore.init))))).
Defined.

End Creation.

(** ** The references of the membership table *)

Section References.

Lemma participants_referenced_iff (d : db) :
  participants_referenced d = true
  <-> forall cp, In cp (conversation_participants d) ->
                 In (Participant.conversation_id cp) (map Conversation.id (conversations d))
                 /\ In (Participant.user_id cp) (map Profile.id (profiles d)).
Proof.
  unfold participants_referenced. rewrite forallb_forall. split.
  - intros H cp Hin. specialize (H cp Hin). apply andb_true_iff in H as [H1 H2].
    apply existsb_exists in H1 as (c & Hc & E1). apply existsb_exists in H2 as (p & Hp & E2).
    apply String.eqb_eq in E1, E2. rewrite <- E1, <- E2. split; apply in_map; assumption.
  - intros H cp Hin. destruct (H cp Hin) as [H1 H2].
    apply in_map_iff in H1 as (c & E1 & Hc). apply in_map_iff in H2 as (p & E2 & Hp).
    apply andb_true_iff. split; apply existsb_exists; eexists; (split; [eassumption |]);
      apply String.eqb_eq; assumption.
Qed.

(** The references hold in every database the statements reach from one
    in which they hold. *)
Lemma participants_referenced_preserved (d : db) (r : role) (now : timestamp)
    (st : statement) :
  participants_referenced d = true -> participants_referenced (execute d r now st) = true.
Proof.
  intros Hd. pose proof (proj1 (participants_referenced_iff d) Hd) as Hall.
  destruct st as [v | target v | fresh g | rows | fresh v]; simpl.
  - destruct (Sql.profiles_insert d r now v) as [e | d'] eqn:H; simpl; [exact Hd |].
    apply profiles_insert_inr in H as [-> _].
    apply participants_referenced_iff. intros cp Hin. simpl in *.
    destruct (Hall cp Hin) as [H1 H2]. split; [exact H1 |].
    rewrite map_app. apply in_app_iff. left. exact H2.
  - destruct (Sql.profiles_update d r target v) as [e | d'] eqn:H; simpl; [exact Hd |].
    apply profiles_update_inr in H as [-> | (OLD & _ & Hid & _ & ->)]; [exact Hd |].
    apply participants_referenced_iff. intros cp Hin. simpl in *.
    destruct (Hall cp Hin) as [H1 H2]. split; [exact H1 |].
    rewrite map_map. erewrite map_ext; [exact H2 |].
    intros p. simpl. destruct (String.eqb (Profile.id p) target) eqn:E; [| reflexivity].
    apply String.eqb_eq in E. simpl. congruence.
  - destruct (Sql.conversations_insert d r now fresh g) as [e | [d' c]] eqn:H; simpl;
      [exact Hd |].
    apply conversations_insert_inr in H as (_ & _ & _ & ->).
    apply participants_referenced_iff. intros cp Hin. simpl in *.
    destruct (Hall cp Hin) as [H1 H2]. split; [| exact H2].
    rewrite map_app. apply in_app_iff. left. exact H1.
  - destruct (Sql.conversation_participants_insert d r now rows) as [e | d'] eqn:H; simpl;
      [exact Hd |].
    pose proof H as H'. apply participants_insert_inr in H' as (-> & _).
    unfold Sql.conversation_participants_insert in H. unbind H.
    rewrite forallb_forall in G0, G1.
    apply participants_referenced_iff. intros cp Hin. simpl in *.
    apply in_app_iff in Hin as [Hin | Hin]; [exact (Hall cp Hin) |].
    apply in_map_iff in Hin as (row & <- & Hrow). simpl.
    specialize (G0 row Hrow). specialize (G1 row Hrow).
    apply existsb_exists in G0 as (c & Hc & E1). apply existsb_exists in G1 as (p & Hp & E2).
    apply String.eqb_eq in E1, E2.
    split; apply in_map_iff; eexists; (split; [eassumption | assumption]).
  - destruct (Sql.messages_insert d r now fresh v) as [e | [d' m]] eqn:H; simpl;
      [exact Hd |].
    apply messages_insert_inr in H as (_ & _ & _ & _ & _ & ->).
    apply participants_referenced_iff. intros cp Hin. simpl in *.
    destruct (Hall cp Hin) as [H1 H2]. split; [| exact H2].
    rewrite map_map. erewrite map_ext; [exact H1 |].
    intros c. simpl. destruct (Message.conversation_id m) as [target |]; [| reflexivity].
    destruct (String.eqb (Conversation.id c) target); reflexivity.
Qed.

End References.

(** ** Integrity kept by every statement *)

Section Integrity.

Lemma existsb_eqb_false {A : Type} (f : A -> string) (k : string) (l : list A) :
  existsb (fun x => String.eqb (f x) k) l = false -> ~ In k (map f l).
Proof.
  intros H Hin. apply in_map_iff in Hin as (x & E & Hx).
  assert (existsb (fun x => String.eqb (f x) k) l = true) as H'.
  { apply existsb_exists. exists x. split; [exact Hx |]. apply String.eqb_eq, E. }
  rewrite H' in H. discriminate.
Qed.

Lemma NoDup_snoc {A : Type} (l : list A) (x : A) :
  List.NoDup l -> ~ In x l -> List.NoDup (l ++ [x]).
Proof.
  intros Hl Hx. apply List.NoDup_app; [exact Hl | repeat constructor; intros [] |].
  intros a Ha [<- | []]. contradiction.
Qed.

Lemma profiles_insert_guards (d d' : db) (r : role) (now : timestamp) (v : Sql.profile_insert) :
  Sql.profiles_insert d r now v = inr d' ->
  existsb (fun p => sql_eq (option_map LOWER (Profile.username p))
                           (option_map LOWER (Sql.pi_username v))
                    && negb (String.eqb (Profile.id p) (Sql.pi_id v))) (profiles d) = false
  /\ existsb (fun p => String.eqb (Profile.id p) (Sql.pi_id v)) (profiles d) = false
  /\ existsb (String.eqb (Sql.pi_id v)) (auth_users d) = true.
Proof.
  unfold Sql.profiles_insert, check_username_unique. intros H.
  destruct (existsb _ (profiles d)) eqn:E; [discriminate |].
  simpl in H. unbind H. apply negb_true_iff in G1.
  repeat split; assumption.
Qed.

Lemma profiles_update_guards (d d' : db) (r : role) (target : uuid) (v : Sql.profile_update) :
  Sql.profiles_update d r target v = inr d' ->
  d' = d
  \/ exists OLD,
      In OLD (profiles d)
      /\ Profile.id OLD = target
      /\ Policy.permits r (fun uid => Policy.profiles_update uid OLD) = true
      /\ existsb (fun p => sql_eq (option_map LOWER (Profile.username p))
                                  (option_map LOWER
                                     (Profile.username (Sql.updated_profile v OLD)))
                           && negb (String.eqb (Profile.id p) target)) (profiles d) = false
      /\ d' = set_profiles
                (map (fun p => if String.eqb (Profile.id p) target
                               then Sql.updated_profile v OLD else p) (profiles d)) d.
Proof.
  unfold Sql.profiles_update.
  destruct (List.find _ (profiles d)) as [OLD |] eqn:F; intros H; [| left; congruence].
  right. exists OLD. apply find_some in F as [Hin Hid].
  apply andb_true_iff in Hid as [Hid Hperm]. apply String.eqb_eq in Hid.
  unfold check_username_unique in H.
  destruct (existsb _ (profiles d)) eqn:E; [discriminate |].
  simpl in H. unbind H. injection H as <-.
  simpl in E. rewrite Hid in E.
  repeat split; assumption.
Qed.

Lemma map_id_update (target : uuid) (NEW : Profile.t) (ps : list Profile.t) :
  Profile.id NEW = target ->
  map Profile.id (map (fun p => if String.eqb (Profile.id p) target then NEW else p) ps)
  = map Profile.id ps.
Proof.
  intros HN. rewrite map_map. apply map_ext. intros p.
  destruct (String.eqb (Profile.id p) target) eqn:E; [| reflexivity].
  apply String.eqb_eq in E. congruence.
Qed.

Lemma map_id_touch (now : timestamp) (m : Message.t) (cs : list Conversation.t) :
  map Conversation.id
      (map (fun c => if sql_eq (Some (Conversation.id c)) (Message.conversation_id m)
                     then Conversation.set_updated_at now c else c) cs)
  = map Conversation.id cs.
Proof.
  rewrite map_map. apply map_ext. intros c.
  destruct (sql_eq (Some (Conversation.id c)) (Message.conversation_id m)); reflexivity.
Qed.

Lemma keys_of_new_rows (now : timestamp) (rows : list (uuid * uuid)) :
  map (fun cp => (Participant.conversation_id cp, Participant.user_id cp))
      (map (fun row => Participant.mk (fst row) (snd row) now) rows)
  = rows.
Proof.
  rewrite map_map. simpl. rewrite <- (map_id rows) at 2. apply map_ext.
  intros [a b]. reflexivity.
Qed.

Lemma key_not_in_table (tbl : list Participant.t) (row : uuid * uuid) :
  existsb (fun cp => String.eqb (Participant.conversation_id cp) (fst row)
                     && String.eqb (Participant.user_id cp) (snd row)) tbl = false ->
  ~ In row (map (fun cp => (Participant.conversation_id cp, Participant.user_id cp)) tbl).
Proof.
  intros H Hin. apply in_map_iff in Hin as (cp & E & Hcp).
  assert (existsb (fun cp => String.eqb (Participant.conversation_id cp) (fst row)
                             && String.eqb (Participant.user_id cp) (snd row)) tbl = true) as H'.
  { apply existsb_exists. exists cp. split; [exact Hcp |].
    rewrite <- E. simpl. rewrite !String.eqb_refl. reflexivity. }
  rewrite H' in H. discriminate.
Qed.

(** X1: the primary keys stay unique.  From a database in which no two
    profiles, no two conversations, no two memberships and no two messages
    share their key, every writing statement, accepted or refused, leads to
    a database with the same property. *)
Theorem keys_unique_preserved (d : db) (r : role) (now : timestamp) (st : statement) :
  keys_unique d -> keys_unique (execute d r now st).
Proof.
  intros (Hp & Hc & Hcp & Hm).
  destruct st as [v | target v | fresh g | rows | fresh v]; simpl.
  - destruct (Sql.profiles_insert d r now v) as [e | d'] eqn:H; simpl;
      [repeat split; assumption |].
    pose proof (profiles_insert_guards _ _ _ _ _ H) as (_ & Hk & _).
    apply profiles_insert_inr in H as [-> _].
    repeat split; try assumption. simpl. rewrite map_app. simpl.
    apply NoDup_snoc; [exact Hp |]. exact (existsb_eqb_false _ _ _ Hk).
  - destruct (Sql.profiles_update d r target v) as [e | d'] eqn:H; simpl;
      [repeat split; assumption |].
    apply profiles_update_guards in H as [-> | (OLD & _ & Hid & _ & _ & ->)];
      [repeat split; assumption |].
    repeat split; try assumption. simpl. rewrite map_id_update; [exact Hp | exact Hid].
  - destruct (Sql.conversations_insert d r now fresh g) as [e | [d' c]] eqn:H; simpl;
      [repeat split; assumption |].
    apply conversations_insert_inr in H as (_ & Hc' & Hk & ->).
    repeat split; try assumption. simpl. rewrite map_app. simpl.
    apply NoDup_snoc; [exact Hc |]. rewrite Hc'. simpl. exact (existsb_eqb_false _ _ _ Hk).
  - destruct (Sql.conversation_participants_insert d r now rows) as [e | d'] eqn:H; simpl;
      [repeat split; assumption |].
    unfold Sql.conversation_participants_insert in H. unbind H. injection H as <-.
    apply participants_rows_inr in G as (-> & Hrows & Hnd).
    repeat split; try assumption. simpl. rewrite map_app, keys_of_new_rows.
    apply List.NoDup_app; [exact Hcp | exact Hnd |].
    intros row Hin Hrow. exact (key_not_in_table _ _ (Hrows row Hrow) Hin).
  - destruct (Sql.messages_insert d r now fresh v) as [e | [d' m]] eqn:H; simpl;
      [repeat split; assumption |].
    apply messages_insert_inr in H as (_ & _ & Hk & _ & _ & ->).
    repeat split; try assumption.
    + unfold update_conversation_timestamp, set_conversations, set_messages.
      cbn [conversations]. rewrite map_id_touch. exact Hc.
    + simpl. rewrite map_app. simpl.
      apply NoDup_snoc; [exact Hm |]. exact (existsb_eqb_false _ _ _ Hk).
Qed.

(** The sample database has unique keys, and still has them after the
    owner of the tables stored its second message. *)
Lemma keys_unique_preserved_witness : keys_unique Sample.d3.
Proof.
  apply (keys_unique_preserved Sample.d2 table_owner 30
           (insert_message "m2"
              (Message.mk_draft None (Some "hi") (Some 30) (Some "B") (Some "c1")
                 (Some "text") None None))).
  repeat split; simpl; repeat constructor; simpl; intuition discriminate.
Defined.

Lemma no_clash_of_trigger (ps : list Profile.t) (name : option string) (k : uuid)
    (p : Profile.t) (a b : string) :
  existsb (fun p => sql_eq (option_map LOWER (Profile.username p)) (option_map LOWER name)
                    && negb (String.eqb (Profile.id p) k)) ps = false ->
  In p ps -> Profile.id p <> k ->
  Profile.username p = Some a -> name = Some b -> LOWER a <> LOWER b.
Proof.
  intros H Hin Hid Ha Hb E.
  assert (existsb (fun p => sql_eq (option_map LOWER (Profile.username p))
                                   (option_map LOWER name)
                            && negb (String.eqb (Profile.id p) k)) ps = true) as H'.
  { apply existsb_exists. exists p. split; [exact Hin |].
    rewrite Ha, Hb. simpl. rewrite E, String.eqb_refl. simpl.
    apply negb_true_iff, String.eqb_neq, Hid. }
  rewrite H' in H. discriminate.
Qed.

(** X2: usernames stay distinct up to case.  From a database in which
    no two profiles with different ids carry usernames equal up to case,
    every writing statement, accepted or refused, leads to a database with
    the same property. *)
Theorem usernames_distinct_preserved (d : db) (r : role) (now : timestamp) (st : statement) :
  usernames_distinct d -> usernames_distinct (execute d r now st).
Proof.
  intros Hd.
  destruct st as [v | target v | fresh g | rows | fresh v]; simpl.
  - destruct (Sql.profiles_insert d r now v) as [e | d'] eqn:H; simpl; [exact Hd |].
    pose proof (profiles_insert_guards _ _ _ _ _ H) as (Ht & _ & _).
    apply profiles_insert_inr in H as [-> _].
    intros p q a b Hp Hq Hid Ha Hb. simpl in Hp, Hq.
    apply in_app_iff in Hp as [Hp | [<- | []]]; apply in_app_iff in Hq as [Hq | [<- | []]].
    + exact (Hd p q a b Hp Hq Hid Ha Hb).
    + simpl in Hid, Hb. exact (no_clash_of_trigger _ _ _ p a b Ht Hp Hid Ha Hb).
    + simpl in Hid, Ha. intros E.
      apply (no_clash_of_trigger _ _ _ q b a Ht Hq); auto.
    + congruence.
  - destruct (Sql.profiles_update d r target v) as [e | d'] eqn:H; simpl; [exact Hd |].
    apply profiles_update_guards in H as [-> | (OLD & _ & HO & _ & Ht & ->)]; [exact Hd |].
    assert (forall p, In p (map (fun p => if String.eqb (Profile.id p) target
                                          then Sql.updated_profile v OLD else p)
                                (profiles d)) ->
                      p = Sql.updated_profile v OLD
                      \/ (In p (profiles d) /\ Profile.id p <> target)) as Hcase.
    { intros p Hp. apply in_map_iff in Hp as (p0 & E & Hp0).
      destruct (String.eqb (Profile.id p0) target) eqn:Et.
      - left. congruence.
      - right. subst p0. split; [exact Hp0 |]. apply String.eqb_neq, Et. }
    intros p q a b Hp Hq Hid Ha Hb. simpl in Hp, Hq.
    destruct (Hcase p Hp) as [-> | [Hp0 Hpt]]; destruct (Hcase q Hq) as [-> | [Hq0 Hqt]].
    + congruence.
    + intros E. apply (no_clash_of_trigger _ _ _ q b a Ht Hq0 Hqt Hb Ha). congruence.
    + exact (no_clash_of_trigger _ _ _ p a b Ht Hp0 Hpt Ha Hb).
    + exact (Hd p q a b Hp0 Hq0 Hid Ha Hb).
  - destruct (Sql.conversations_insert d r now fresh g) as [e | [d' c]] eqn:H; simpl;
      [exact Hd |].
    apply conversations_insert_inr in H as (_ & _ & _ & ->). exact Hd.
  - destruct (Sql.conversation_participants_insert d r now rows) as [e | d'] eqn:H; simpl;
      [exact Hd |].
    apply participants_insert_inr in H as (-> & _). exact Hd.
  - destruct (Sql.messages_insert d r now fresh v) as [e | [d' m]] eqn:H; simpl;
      [exact Hd |].
    apply messages_insert_inr in H as (_ & _ & _ & _ & _ & ->). exact Hd.
Qed.

(** Alice, bob and carol are distinct up to case, and stay so when Bob
    renames himself to "Bobby". *)
Lemma usernames_distinct_preserved_witness :
  usernames_distinct
    (execute Sample.d0 (authenticated "B") 5
       (update_profile "B" (Sql.mk_profile_update (Some "Bobby") None None None))).
Proof.
  apply usernames_distinct_preserved.
  intros p q a b Hp Hq Hid Ha Hb. simpl in Hp, Hq.
  destruct Hp as [<- | [<- | [<- | []]]]; destruct Hq as [<- | [<- | [<- | []]]];
    simpl in *; try congruence;
    injection Ha as <-; injection Hb as <-; vm_compute; discriminate.
Defined.

Lemma references_incl (ids ids' : list uuid) (ref : option uuid) :
  incl ids ids' -> Sql.references ids ref = true -> Sql.references ids' ref = true.
Proof.
  intros Hincl. destruct ref as [x |]; simpl; [| reflexivity].
  intros H. apply existsb_exists in H as (y & Hy & E).
  apply existsb_exists. exists y. split; [apply Hincl, Hy | exact E].
Qed.

Lemma messages_referenced_ext (d d' : db) :
  messages d' = messages d ->
  incl (map Conversation.id (conversations d)) (map Conversation.id (conversations d')) ->
  incl (map Profile.id (profiles d)) (map Profile.id (profiles d')) ->
  messages_referenced d = true -> messages_referenced d' = true.
Proof.
  unfold messages_referenced. intros -> Hc Hp H.
  rewrite forallb_forall in *. intros m Hm. specialize (H m Hm).
  apply andb_true_iff in H as [H1 H2]. apply andb_true_iff. split.
  - exact (references_incl _ _ _ Hc H1).
  - exact (references_incl _ _ _ Hp H2).
Qed.

Lemma incl_eq {A : Type} (l l' : list A) : l' = l -> incl l l'.
Proof. intros ->. apply incl_refl. Qed.

Lemma profiles_referenced_in (d : db) :
  profiles_referenced d = true
  <-> forall p, In p (profiles d) -> In (Profile.id p) (auth_users d).
Proof.
  unfold profiles_referenced. rewrite forallb_forall. split.
  - intros H p Hp. specialize (H p Hp). apply existsb_exists in H as (x & Hx & E).
    apply String.eqb_eq in E. rewrite E. exact Hx.
  - intros H p Hp. apply existsb_exists. exists (Profile.id p).
    split; [exact (H p Hp) | apply String.eqb_refl].
Qed.

(** X3: the foreign keys stay satisfied.  From a database in which
    every membership refers to a stored conversation and a stored profile,
    every message to a stored conversation and a stored profile (or to
    none), and every profile to a user of the authentication service, every
    writing statement, accepted or refused, leads to a database with the
    same property. *)
Theorem references_preserved (d : db) (r : role) (now : timestamp) (st : statement) :
  references_hold d = true -> references_hold (execute d r now st) = true.
Proof.
  unfold references_hold. intros H.
  apply andb_true_iff in H as [H Hpr]. apply andb_true_iff in H as [Hcp Hm].
  apply andb_true_iff. split; [apply andb_true_iff; split |].
  - exact (participants_referenced_preserved d r now st Hcp).
  - destruct st as [v | target v | fresh g | rows | fresh v]; simpl.
    + destruct (Sql.profiles_insert d r now v) as [e | d'] eqn:E; simpl; [exact Hm |].
      apply profiles_insert_inr in E as [-> _].
      apply (messages_referenced_ext d); [reflexivity | apply incl_refl | | exact Hm].
      simpl. rewrite map_app. apply incl_appl, incl_refl.
    + destruct (Sql.profiles_update d r target v) as [e | d'] eqn:E; simpl; [exact Hm |].
      apply profiles_update_guards in E as [-> | (OLD & _ & Hid & _ & _ & ->)]; [exact Hm |].
      apply (messages_referenced_ext d); [reflexivity | apply incl_refl | | exact Hm].
      simpl. apply incl_eq, map_id_update, Hid.
    + destruct (Sql.conversations_insert d r now fresh g) as [e | [d' c]] eqn:E; simpl;
        [exact Hm |].
      apply conversations_insert_inr in E as (_ & _ & _ & ->).
      apply (messages_referenced_ext d); [reflexivity | | apply incl_refl | exact Hm].
      simpl. rewrite map_app. apply incl_appl, incl_refl.
    + destruct (Sql.conversation_participants_insert d r now rows) as [e | d'] eqn:E; simpl;
        [exact Hm |].
      apply participants_insert_inr in E as (-> & _). exact Hm.
    + destruct (Sql.messages_insert d r now fresh v) as [e | [d' m]] eqn:E; simpl;
        [exact Hm |].
      apply messages_insert_inr in E as (_ & _ & _ & Hfc & Hfp & ->).
      unfold messages_referenced, update_conversation_timestamp, set_conversations,
        set_messages in *.
      cbn [messages conversations profiles]. rewrite map_id_touch, forallb_app.
      apply andb_true_iff. split; [exact Hm |].
      cbn [forallb]. rewrite Hfc, Hfp. reflexivity.
  - apply profiles_referenced_in. rewrite profiles_referenced_in in Hpr.
    destruct st as [v | target v | fresh g | rows | fresh v]; simpl.
    + destruct (Sql.profiles_insert d r now v) as [e | d'] eqn:E; simpl; [exact Hpr |].
      pose proof (profiles_insert_guards _ _ _ _ _ E) as (_ & _ & Hfk).
      apply profiles_insert_inr in E as [-> _].
      intros p Hp. simpl in Hp. apply in_app_iff in Hp as [Hp | [<- | []]];
        [exact (Hpr p Hp) |].
      simpl. apply existsb_exists in Hfk as (x & Hx & Ex).
      apply String.eqb_eq in Ex. rewrite Ex. exact Hx.
    + destruct (Sql.profiles_update d r target v) as [e | d'] eqn:E; simpl; [exact Hpr |].
      apply profiles_update_guards in E as [-> | (OLD & HO & Hid & _ & _ & ->)]; [exact Hpr |].
      intros p Hp. simpl in Hp. apply in_map_iff in Hp as (p0 & Ep & Hp0).
      destruct (String.eqb (Profile.id p0) target); [| subst p0; exact (Hpr p Hp0)].
      subst p. simpl. exact (Hpr OLD HO).
    + destruct (Sql.conversations_insert d r now fresh g) as [e | [d' c]] eqn:E; simpl;
        [exact Hpr |].
      apply conversations_insert_inr in E as (_ & _ & _ & ->). exact Hpr.
    + destruct (Sql.conversation_participants_insert d r now rows) as [e | d'] eqn:E; simpl;
        [exact Hpr |].
      apply participants_insert_inr in E as (-> & _). exact Hpr.
    + destruct (Sql.messages_insert d r now fresh v) as [e | [d' m]] eqn:E; simpl;
        [exact Hpr |].
      apply messages_insert_inr in E as (_ & _ & _ & _ & _ & ->). exact Hpr.
Qed.

(** The references of the sample hold, before and after the owner of the
    tables stored its second message. *)
Lemma references_preserved_witness : references_hold Sample.d3 = true.
Proof.
  apply (references_preserved Sample.d2 table_owner 30
           (insert_message "m2"
              (Message.mk_draft None (Some "hi") (Some 30) (Some "B") (Some "c1")
                 (Some "text") None None))).
  reflexivity.
Defined.

Lemma filter_filter_other {A : Type} (f g : A -> bool) (l : list A) :
  (forall x, f x = true -> g x = true) ->
  List.filter f (List.filter g l) = List.filter f l.
Proof.
  intros H. induction l as [| x l IH]; simpl; [reflexivity |].
  destruct (g x) eqn:G; simpl.
  - rewrite IH. reflexivity.
  - destruct (f x) eqn:F; [| exact IH]. rewrite (H x F) in G. discriminate.
Qed.

Lemma filter_none {A : Type} (f g : A -> bool) (l : list A) :
  (forall x, f x = true -> g x = false) ->
  List.filter f (List.filter g l) = [].
Proof.
  intros H. induction l as [| x l IH]; simpl; [reflexivity |].
  destruct (g x) eqn:G; simpl; [| exact IH].
  destruct (f x) eqn:F; [| exact IH]. rewrite (H x F) in G. discriminate.
Qed.

Lemma in_map_filter {A : Type} (f : A -> string) (k : string) (l : list A) (x : string) :
  In x (map f l) -> x <> k ->
  In x (map f (List.filter (fun a => negb (String.eqb (f a) k)) l)).
Proof.
  intros Hin Hx. apply in_map_iff in Hin as (a & <- & Ha).
  apply in_map, filter_In. split; [exact Ha |].
  apply negb_true_iff, String.eqb_neq, Hx.
Qed.

(** X4: deleting a conversation.  An authenticated caller deletes
    nothing: the migrations declare no policy for DELETE, and the statement
    is refused.  When the owner of the tables deletes the conversation
    [cid], its memberships and its messages go with it, the memberships and
    messages of every other conversation stay as they are, and the foreign
    keys, if they held, still hold. *)
Theorem conversations_delete_cascades (d : db) (cid : uuid) :
  let d' := after d (Cascade.conversations_delete d table_owner cid) in
  (forall uid, after d (Cascade.conversations_delete d (authenticated uid) cid) = d)
  /\ ~ In cid (map Conversation.id (conversations d'))
  /\ members d' cid = []
  /\ messages_of d' cid = []
  /\ (forall c, c <> cid -> members d' c = members d c /\ messages_of d' c = messages_of d c)
  /\ (references_hold d = true -> references_hold d' = true).
Proof.
  intros d'. unfold d'. simpl. split; [reflexivity |]. split; [| split; [| split; [| split]]].
  - intros Hin. apply in_map_iff in Hin as (c & E & Hc). apply filter_In in Hc as [_ Hc].
    rewrite E, String.eqb_refl in Hc. discriminate.
  - unfold members. simpl. rewrite filter_none; [reflexivity |].
    intros cp E. rewrite E. reflexivity.
  - unfold messages_of. simpl. rewrite filter_none; [reflexivity |].
    intros m E. rewrite E. reflexivity.
  - intros c Hc. unfold members, messages_of. simpl. split.
    + rewrite filter_filter_other; [reflexivity |].
      intros cp E. apply String.eqb_eq in E. rewrite E.
      apply negb_true_iff, String.eqb_neq, Hc.
    + rewrite filter_filter_other; [reflexivity |].
      intros m E. unfold sql_eq in *. destruct (Message.conversation_id m) as [x |];
        [| discriminate].
      apply String.eqb_eq in E. rewrite E. apply negb_true_iff, String.eqb_neq, Hc.
  - unfold references_hold. intros H.
    apply andb_true_iff in H as [H Hpr]. apply andb_true_iff in H as [Hcp Hm].
    apply andb_true_iff. split; [apply andb_true_iff; split |].
    + apply participants_referenced_iff. intros cp Hin. simpl in *.
      apply filter_In in Hin as [Hin Hne].
      destruct (proj1 (participants_referenced_iff d) Hcp cp Hin) as [H1 H2].
      split; [| exact H2].
      apply in_map_filter; [exact H1 |]. apply String.eqb_neq, negb_true_iff, Hne.
    + unfold messages_referenced in *. rewrite forallb_forall in *. simpl.
      intros m Hin. apply filter_In in Hin as [Hin Hne]. specialize (Hm m Hin).
      apply andb_true_iff in Hm as [H1 H2]. rewrite H2, andb_true_r.
      unfold Sql.references, sql_eq in *.
      destruct (Message.conversation_id m) as [x |]; [| reflexivity].
      apply existsb_exists in H1 as (y & Hy & E). apply String.eqb_eq in E. subst y.
      apply existsb_exists. exists x. split; [| apply String.eqb_refl].
      apply in_map_filter; [exact Hy |]. apply String.eqb_neq, negb_true_iff, Hne.
    + exact Hpr.
Qed.

(** Deleting "c1" from the sample leaves a database whose references hold. *)
Lemma conversations_delete_cascades_witness :
  references_hold (after Sample.d3 (Cascade.conversations_delete Sample.d3 table_owner "c1"))
  = true
  /\ messages (after Sample.d3 (Cascade.conversations_delete Sample.d3 table_owner "c1")) = [].
Proof.
  destruct (conversations_delete_cascades Sample.d3 "c1") as (_ & _ & _ & _ & _ & H).
  split; [apply H; reflexivity | reflexivity].
Defined.

(** X5: deleting a profile.  An authenticated caller deletes nothing.
    When the owner of the tables deletes the profile [uid], the memberships
    and the messages of that user go with it, no conversation is removed,
    and the foreign keys, if they held, still hold. *)
Theorem profiles_delete_cascades (d : db) (uid : uuid) :
  let d' := after d (Cascade.profiles_delete d table_owner uid) in
  (forall caller, after d (Cascade.profiles_delete d (authenticated caller) uid) = d)
  /\ ~ In uid (map Profile.id (profiles d'))
  /\ (forall cid, is_participant d' cid uid = false)
  /\ (forall m, In m (messages d') -> Message.user_id m <> Some uid)
  /\ conversations d' = conversations d
  /\ (references_hold d = true -> references_hold d' = true).
Proof.
  intros d'. unfold d'. simpl. split; [reflexivity |]. split; [| split; [| split; [| split]]].
  - intros Hin. apply in_map_iff in Hin as (p & E & Hp). apply filter_In in Hp as [_ Hp].
    rewrite E, String.eqb_refl in Hp. discriminate.
  - intros cid. unfold is_participant. simpl.
    destruct (existsb _ _) eqn:E; [| reflexivity].
    apply existsb_exists in E as (cp & Hin & E). apply filter_In in Hin as [_ Hne].
    apply andb_true_iff in E as [_ E]. rewrite E in Hne. discriminate.
  - intros m Hin E. apply filter_In in Hin as [_ Hne].
    rewrite E in Hne. simpl in Hne. rewrite String.eqb_refl in Hne. discriminate.
  - reflexivity.
  - unfold references_hold. intros H.
    apply andb_true_iff in H as [H Hpr]. apply andb_true_iff in H as [Hcp Hm].
    apply andb_true_iff. split; [apply andb_true_iff; split |].
    + apply participants_referenced_iff. intros cp Hin. simpl in *.
      apply filter_In in Hin as [Hin Hne].
      destruct (proj1 (participants_referenced_iff d) Hcp cp Hin) as [H1 H2].
      split; [exact H1 |].
      apply in_map_filter; [exact H2 |]. apply String.eqb_neq, negb_true_iff, Hne.
    + unfold messages_referenced in *. rewrite forallb_forall in *. simpl.
      intros m Hin. apply filter_In in Hin as [Hin Hne]. specialize (Hm m Hin).
      apply andb_true_iff in Hm as [H1 H2]. rewrite H1. simpl.
      unfold Sql.references, sql_eq in *.
      destruct (Message.user_id m) as [x |]; [| reflexivity].
      apply existsb_exists in H2 as (y & Hy & E). apply String.eqb_eq in E. subst y.
      apply existsb_exists. exists x. split; [| apply String.eqb_refl].
      apply in_map_filter; [exact Hy |]. apply String.eqb_neq, negb_true_iff, Hne.
    + apply profiles_referenced_in. rewrite profiles_referenced_in in Hpr. simpl.
      intros p Hin. apply filter_In in Hin as [Hin _]. exact (Hpr p Hin).
Qed.

(** Deleting Alice from the sample takes her message and her membership. *)
Lemma profiles_delete_cascades_witness :
  references_hold (after Sample.d3 (Cascade.profiles_delete Sample.d3 table_owner "A")) = true
  /\ messages (after Sample.d3 (Cascade.profiles_delete Sample.d3 table_owner "A"))
     = [Sample.m2].
Proof.
  destruct (profiles_delete_cascades Sample.d3 "A") as (_ & _ & _ & _ & _ & H).
  split; [apply H; reflexivity | reflexivity].
Defined.

End Integrity.

(** ** When [sendMessage] stores a draft *)

Section Acceptance.

(** X6: when [sendMessage] stores a draft.  The draft is stored, and
    appended to the list in memory, exactly when the client is not subject
    to the policies, the id of the row (the draft's, or else the generated
    one) is not taken, and the draft names no conversation or a stored one,
    and no sender or a stored profile; the conversation it names then gets
    the time of the insert as its update timestamp.  Otherwise the database
    and the list stay as they were and [error] is set.  For a signed-in
    user that is always so, and the error is the one of the policies. *)
Theorem sendMessage_accepts (d : db) (r : role) (now : timestamp) (fresh : uuid)
    (v : Message.draft) (s : MessageStore.t) :
  let NEW := Sql.new_message now fresh v in
  let accepted :=
    r = table_owner
    /\ existsb (fun m => String.eqb (Message.id m) (Message.id NEW)) (messages d) = false
    /\ Sql.references (map Conversation.id (conversations d)) (Message.d_conversation_id v)
       = true
    /\ Sql.references (map Profile.id (profiles d)) (Message.d_user_id v) = true in
  (accepted ->
   MessageStore.sendMessage_as d r now fresh v s
   = (mk_db (auth_users d) (profiles d)
        (map (fun c => if sql_eq (Some (Conversation.id c)) (Message.d_conversation_id v)
                       then Conversation.set_updated_at now c else c)
             (conversations d))
        (conversation_participants d)
        (messages d ++ [NEW]),
      MessageStore.mk (MessageStore.messages s ++ [NEW]) (MessageStore.loading s)
                      (MessageStore.error s),
      resolved tt))
  /\ (~ accepted ->
      exists e,
        MessageStore.sendMessage_as d r now fresh v s
        = (d,
           MessageStore.mk (MessageStore.messages s) (MessageStore.loading s)
                           (Some (error_message e)),
           resolved tt))
  /\ (forall uid,
        MessageStore.sendMessage d uid now fresh v s
        = (d,
           MessageStore.mk (MessageStore.messages s) (MessageStore.loading s)
                           (Some (error_message policy_recursion)),
           resolved tt)).
Proof.
  intros NEW accepted. split; [| split].
  - intros (-> & Hk & Hc & Hu).
    unfold MessageStore.sendMessage_as, Sql.messages_insert. fold NEW.
    assert (Sql.references (map Conversation.id (conversations d))
                           (Message.conversation_id NEW) = true) as Hconv by exact Hc.
    assert (Sql.references (map Profile.id (profiles d)) (Message.user_id NEW) = true)
      as Huser by exact Hu.
    simpl Rls.prepare. simpl Policy.permits.
    rewrite Hk, Hconv, Huser. reflexivity.
  - intros Hno. unfold MessageStore.sendMessage_as.
    destruct (Sql.messages_insert d r now fresh v) as [e | [d' m]] eqn:E.
    + exists e. reflexivity.
    + exfalso. apply Hno.
      apply messages_insert_inr in E as (Hr & Hm & Hk & Hc & Hu & _).
      subst m. unfold accepted. fold NEW in Hk, Hc, Hu. auto.
  - intros uid. reflexivity.
Qed.

(** The second message of the sample: stored for a client that is not
    subject to the policies, refused for Bob. *)
Lemma sendMessage_accepts_witness :
  MessageStore.sendMessage_as Sample.d2 table_owner 30 "m2"
    (ChatWindow.text_message "B" "c1" "hi" 30) MessageStore.init
  = (Sample.d3, MessageStore.mk [Sample.m2] false None, resolved tt)
  /\ MessageStore.sendMessage Sample.d2 "B" 30 "m2"
       (ChatWindow.text_message "B" "c1" "hi" 30) MessageStore.init
     = (Sample.d2, MessageStore.mk [] false (Some (error_message policy_recursion)),
        resolved tt).
Proof.
  destruct (sendMessage_accepts Sample.d2 table_owner 30 "m2"
              (ChatWindow.text_message "B" "c1" "hi" 30) MessageStore.init) as (H & _ & H').
  split; [| exact (H' "B")].
  apply H. repeat split.
Defined.

End Acceptance.

(** ** The button "Create Chat" *)

Section NewConversation.

(** X9: the button "Create Chat".  With no user selected
    [handleCreateConversation] does nothing.  With users selected it calls
    [createConversation], which rejects: the store gets the message of the
    failure in [error], which for a signed-in user is the one of the
    policies.  In every case nothing is written to the database, the state
    of the side bar, its selection included, is as it was, and the handler
    does not navigate. *)
Theorem handleCreateConversation_outcome (d : db) (session : option uuid) (now : timestamp)
    (fresh : uuid) (now' : timestamp) (store : ConversationStore.t) (st : Sidebar.t) :
  let result := Sidebar.handleCreateConversation d session now fresh now' store st in
  (Sidebar.selectedUsers st = [] -> result = (d, store, st, None))
  /\ (Sidebar.selectedUsers st <> [] ->
      exists e,
        result
        = (d,
           ConversationStore.mk (ConversationStore.conversations store)
             (ConversationStore.loading store) (Some (error_message e)),
           st, None)
        /\ (forall caller, session = Some caller -> e = policy_recursion)
        /\ (session = None -> e = js_error "No user found"))
  /\ fst (fst (fst result)) = d
  /\ snd (fst result) = st
  /\ snd result = None.
Proof.
  intros result. unfold result. clear result.
  unfold Sidebar.handleCreateConversation.
  split; [intros ->; reflexivity |].
  destruct (Sidebar.selectedUsers st) as [| u us] eqn:Eu.
  { simpl. split; [intros H; contradiction | repeat split]. }
  cbn [length Nat.eqb].
  destruct session as [caller |].
  - rewrite createConversation_signed_in. split; [| repeat split].
    intros _. exists policy_recursion. split; [reflexivity |]. split.
    + intros c _. reflexivity.
    + discriminate.
  - simpl. split; [| repeat split].
    intros _. exists (js_error "No user found"). split; [reflexivity |]. split.
    + discriminate.
    + reflexivity.
Qed.

(** Alice has selected Bob and presses the button. *)
Lemma handleCreateConversation_outcome_witness :
  exists e,
    Sidebar.handleCreateConversation Sample.d0 (Some "A") 10 "c1" 11
      ConversationStore.init (Sidebar.mk true "" [Sample.bob] [] false)
    = (Sample.d0,
       ConversationStore.mk [] false (Some (error_message e)),
       Sidebar.mk true "" [Sample.bob] [] false, None)
    /\ (forall caller, Some "A" = Some caller -> e = policy_recursion)
    /\ (Some "A" = None -> e = js_error "No user found").
Proof.
  apply (proj1 (proj2 (handleCreateConversation_outcome Sample.d0 (Some "A") 10 "c1" 11
                         ConversationStore.init (Sidebar.mk true "" [Sample.bob] [] false)))).
  discriminate.
Defined.

End NewConversation.

(** ** Reading and writing one's own rows *)

Section Isolation.

(** X11: nobody reads the messages of a conversation through
    [fetchMessages].  Its query is refused for every signed-in user,
    participant of the conversation or not: the list in memory stays as it
    was, [error] holds the message of the policies, and [loading] is off. *)
Theorem fetchMessages_refused (d : db) (uid cid : uuid) (s : MessageStore.t) :
  MessageStore.fetchMessages d uid cid s
  = MessageStore.mk (MessageStore.messages s) false (Some (error_message policy_recursion)).
Proof. reflexivity. Qed.

(** Alice, a participant of "c1" with one message in memory, fetches "c1",
    which holds two: her list stays as it was. *)
Lemma fetchMessages_refused_witness :
  is_participant Sample.d3 "c1" "A" = true
  /\ MessageStore.fetchMessages Sample.d3 "A" "c1" (MessageStore.mk [Sample.m1] false None)
     = MessageStore.mk [Sample.m1] false (Some (error_message policy_recursion)).
Proof.
  split; [reflexivity |].
  exact (fetchMessages_refused Sample.d3 "A" "c1" (MessageStore.mk [Sample.m1] false None)).
Defined.

Lemma update_target_is_caller (d : db) (uid target : uuid) (x : Profile.t) :
  List.find (fun p => String.eqb (Profile.id p) target
                      && Policy.permits (authenticated uid)
                           (fun u => Policy.profiles_update u p))
            (profiles d) = Some x ->
  target = uid.
Proof.
  intros F. apply find_some in F as [_ F]. apply andb_true_iff in F as [F1 F2].
  simpl in F2. unfold Policy.profiles_update in F2.
  apply String.eqb_eq in F1, F2. congruence.
Qed.

(** X12: an authenticated caller updates no profile but his own.  The
    update of another user's profile changes nothing and reports no error;
    whatever the target, the profiles of the other users, the ids of all
    profiles and the other tables are after the update what they were
    before. *)
Theorem profiles_update_own_only (d : db) (uid target : uuid) (v : Sql.profile_update) :
  let d' := after d (Sql.profiles_update d (authenticated uid) target v) in
  (target <> uid -> Sql.profiles_update d (authenticated uid) target v = inr d)
  /\ List.filter (fun p => negb (String.eqb (Profile.id p) uid)) (profiles d')
     = List.filter (fun p => negb (String.eqb (Profile.id p) uid)) (profiles d)
  /\ map Profile.id (profiles d') = map Profile.id (profiles d)
  /\ conversations d' = conversations d
  /\ conversation_participants d' = conversation_participants d
  /\ messages d' = messages d.
Proof.
  intros d'. unfold d'. clear d'.
  split.
  - intros Hne. unfold Sql.profiles_update.
    destruct (List.find _ (profiles d)) as [x |] eqn:F; [| reflexivity].
    exfalso. exact (Hne (update_target_is_caller d uid target x F)).
  - destruct (Sql.profiles_update d (authenticated uid) target v) as [e | d'] eqn:H; simpl;
      [repeat split |].
    apply profiles_update_guards in H as [-> | (OLD & HO & Hid & Hperm & _ & ->)];
      [repeat split |].
    simpl in Hperm. unfold Policy.profiles_update in Hperm. apply String.eqb_eq in Hperm.
    assert (target = uid) as -> by congruence.
    split; [| split; [| repeat split]].
    + simpl. clear HO. induction (profiles d) as [| p l IH]; simpl; [reflexivity |].
      destruct (String.eqb (Profile.id p) uid) eqn:E; simpl.
      * rewrite Hid, String.eqb_refl. simpl. exact IH.
      * rewrite E. simpl. rewrite IH. reflexivity.
    + simpl. apply map_id_update. exact Hid.
Qed.

(** Bob's attempt to rename Alice changes nothing. *)
Lemma profiles_update_own_only_witness :
  Sql.profiles_update Sample.d0 (authenticated "B") "A"
    (Sql.mk_profile_update (Some "mallory") None None None)
  = inr Sample.d0.
Proof.
  destruct (profiles_update_own_only Sample.d0 "B" "A"
              (Sql.mk_profile_update (Some "mallory") None None None)) as (H & _).
  apply H. discriminate.
Defined.

End Isolation.

(** ** The recording time *)

Section RecordingTime.

Lemma to_uint_nonnil (n : nat) : Nat.to_uint n <> Decimal.Nil.
Proof.
  rewrite <- (DecimalNat.Unsigned.of_to n) at 1.
  rewrite DecimalNat.Unsigned.to_of. apply DecimalFacts.unorm_nonnil.
Qed.

Lemma toString_inj (n m : nat) : Recording.toString n = Recording.toString m -> n = m.
Proof.
  unfold Recording.toString. intros H.
  apply DecimalNat.Unsigned.to_uint_inj.
  pose proof (DecimalString.NilZero.usu _ (to_uint_nonnil n)) as Hn.
  pose proof (DecimalString.NilZero.usu _ (to_uint_nonnil m)) as Hm.
  rewrite H in Hn. congruence.
Qed.

Lemma seconds_are_two_digits (k : nat) :
  (k < 60)%nat -> Recording.padStart 2 "0" (Recording.toString k) = two_digits k.
Proof.
  intros Hk.
  assert (forallb (fun k => String.eqb (Recording.padStart 2 "0" (Recording.toString k))
                                       (two_digits k)) (seq 0 60) = true) as Hall
      by (vm_compute; reflexivity).
  rewrite forallb_forall in Hall. apply String.eqb_eq, Hall, in_seq. lia.
Qed.

Lemma two_digits_inj (k k' : nat) :
  (k < 60)%nat -> (k' < 60)%nat -> two_digits k = two_digits k' -> k = k'.
Proof.
  intros Hk Hk' H. unfold two_digits in H.
  assert (forall a b, (a < 256)%nat -> (b < 256)%nat ->
                      ascii_of_nat a = ascii_of_nat b -> a = b) as Hinj.
  { intros a b Ha Hb E. rewrite <- (nat_ascii_embedding a Ha), <- (nat_ascii_embedding b Hb).
    rewrite E. reflexivity. }
  assert (k / 10 < 10)%nat by (apply Nat.Div0.div_lt_upper_bound; lia).
  assert (k' / 10 < 10)%nat by (apply Nat.Div0.div_lt_upper_bound; lia).
  pose proof (Nat.mod_upper_bound k 10 ltac:(lia)).
  pose proof (Nat.mod_upper_bound k' 10 ltac:(lia)).
  pose proof (Nat.div_mod_eq k 10) as Ek. pose proof (Nat.div_mod_eq k' 10) as Ek'.
  remember (k / 10)%nat as q. remember (k mod 10)%nat as r.
  remember (k' / 10)%nat as q'. remember (k' mod 10)%nat as r'.
  remember (48 + q)%nat as a. remember (48 + r)%nat as b.
  remember (48 + q')%nat as a'. remember (48 + r')%nat as b'.
  injection H as Ea Eb.
  apply Hinj in Ea; [| lia | lia]. apply Hinj in Eb; [| lia | lia]. lia.
Qed.

Lemma length_append (a b : string) :
  String.length (a ++ b)%string = (String.length a + String.length b)%nat.
Proof.
  induction a as [| c a IH]; [reflexivity |].
  change (S (String.length (a ++ b)%string) = S (String.length a + String.length b)).
  rewrite IH. reflexivity.
Qed.

Lemma append_same_length (a a' b b' : string) :
  (a ++ b)%string = (a' ++ b')%string -> String.length b = String.length b' ->
  a = a' /\ b = b'.
Proof.
  revert a'. induction a as [| c a IH]; intros a' H Hl.
  - destruct a' as [| c' a']; [split; [reflexivity | exact H] |].
    exfalso. change (b = String c' (a' ++ b')%string) in H. rewrite H in Hl.
    cbn [String.length] in Hl. rewrite length_append in Hl. lia.
  - destruct a' as [| c' a'].
    + exfalso. change (String c (a ++ b)%string = b') in H. rewrite <- H in Hl.
      cbn [String.length] in Hl. rewrite length_append in Hl. lia.
    + change (String c (a ++ b)%string = String c' (a' ++ b')%string) in H.
      injection H as <- H. destruct (IH a' H Hl) as [-> ->]. split; reflexivity.
Qed.

(** X13: the recording time as the chat window displays it.
    [formatTime] gives the minutes, a colon and the seconds in exactly two
    digits; two different numbers of seconds are never displayed alike. *)
Theorem formatTime_two_digits_injective :
  (forall n, Recording.formatTime n
             = (Recording.toString (n / 60) ++ ":" ++ two_digits (n mod 60))%string)
  /\ (forall n m, Recording.formatTime n = Recording.formatTime m -> n = m).
Proof.
  assert (forall n, Recording.formatTime n
                    = (Recording.toString (n / 60) ++ ":" ++ two_digits (n mod 60))%string)
    as Hshape.
  { intros n. unfold Recording.formatTime.
    rewrite seconds_are_two_digits; [reflexivity |].
    apply Nat.mod_upper_bound. lia. }
  split; [exact Hshape |].
  intros n m H. rewrite !Hshape in H.
  apply append_same_length in H as [Hq Hr].
  - apply toString_inj in Hq.
    change (String ":" (two_digits (n mod 60)) = String ":" (two_digits (m mod 60))) in Hr.
    assert (two_digits (n mod 60) = two_digits (m mod 60)) as Hd by congruence.
    apply two_digits_inj in Hd; try (apply Nat.mod_upper_bound; lia).
    rewrite (Nat.div_mod_eq n 60), (Nat.div_mod_eq m 60). lia.
  - reflexivity.
Qed.

(** Sixty-five seconds are shown as "1:05", and as nothing else. *)
Lemma formatTime_two_digits_injective_witness :
  Recording.formatTime 65 = "1:05" /\ forall m, Recording.formatTime m = "1:05" -> m = 65%nat.
Proof.
  split; [reflexivity |].
  intros m H. destruct formatTime_two_digits_injective as [_ Hinj].
  apply Hinj. exact H.
Defined.

End RecordingTime.

(** ** Attachments *)

Section Attachments.

Lemma split_nonempty (sep : ascii) (s : string) : Attachment.split sep s <> [].
Proof.
  destruct s as [| c s]; simpl; [discriminate |].
  destruct (Ascii.eqb c sep); [discriminate |].
  destruct (Attachment.split sep s); discriminate.
Qed.

Lemma join_cons_char (sep c : ascii) (seg : string) (rest : list string) :
  Attachment.join sep (String c seg :: rest) = String c (Attachment.join sep (seg :: rest)).
Proof.
  destruct rest; reflexivity.
Qed.

Lemma join_split (sep : ascii) (s : string) :
  Attachment.join sep (Attachment.split sep s) = s.
Proof.
  induction s as [| c s IH]; [reflexivity |].
  cbn [Attachment.split]. destruct (Ascii.eqb c sep) eqn:E.
  - apply Ascii.eqb_eq in E. subst c.
    destruct (Attachment.split sep s) as [| seg rest] eqn:Es;
      [exfalso; exact (split_nonempty sep s Es) |].
    change (String sep (Attachment.join sep (seg :: rest)) = String sep s).
    rewrite IH. reflexivity.
  - destruct (Attachment.split sep s) as [| seg rest] eqn:Es;
      [exfalso; exact (split_nonempty sep s Es) |].
    rewrite join_cons_char, IH. reflexivity.
Qed.

Lemma split_segments (sep : ascii) (s : string) :
  List.Forall (fun seg => contains sep seg = false) (Attachment.split sep s).
Proof.
  induction s as [| c s IH]; [repeat constructor |].
  cbn [Attachment.split]. destruct (Ascii.eqb c sep) eqn:E.
  - constructor; [reflexivity | exact IH].
  - destruct (Attachment.split sep s) as [| seg rest]; [repeat constructor; simpl |].
    + rewrite E. reflexivity.
    + inversion IH as [| ? ? Hseg Hrest]; subst. constructor; [| exact Hrest].
      simpl. rewrite E, Hseg. reflexivity.
Qed.

Lemma split_without_sep (sep : ascii) (s : string) :
  contains sep s = false -> Attachment.split sep s = [s].
Proof.
  induction s as [| c s IH]; [reflexivity |].
  simpl. intros H. apply orb_false_iff in H as [E H]. rewrite E, (IH H). reflexivity.
Qed.

Lemma join_snoc (sep : ascii) (init : list string) (x : string) :
  init <> [] ->
  Attachment.join sep (init ++ [x]) = (Attachment.join sep init ++ String sep x)%string.
Proof.
  induction init as [| seg init IH]; [congruence |]. intros _.
  destruct init as [| seg' init].
  - reflexivity.
  - change (Attachment.join sep ((seg :: seg' :: init) ++ [x]))
      with (seg ++ String sep (Attachment.join sep ((seg' :: init) ++ [x])))%string.
    rewrite IH; [| discriminate].
    change (Attachment.join sep (seg :: seg' :: init))
      with (seg ++ String sep (Attachment.join sep (seg' :: init)))%string.
    generalize (Attachment.join sep (seg' :: init)). intros j.
    clear IH. induction seg as [| c seg IHs]; [reflexivity |].
    change (String c (seg ++ String sep (j ++ String sep x))%string
            = String c ((seg ++ String sep j) ++ String sep x)%string).
    rewrite IHs. reflexivity.
Qed.

(** X14: the extension [uploadToSupabase] takes from a file name.
    Splitting the name at its dots and joining the pieces with dots gives
    the name back.  The extension, the last piece, contains no dot; it is
    the whole name when the name has no dot, and otherwise the name is some
    stem, a dot and the extension. *)
Theorem fileExt_is_last_piece (name : string) :
  Attachment.join "." (Attachment.split "." name) = name
  /\ contains "." (Attachment.fileExt name) = false
  /\ (contains "." name = false -> Attachment.fileExt name = name)
  /\ (contains "." name = true ->
      exists stem, name = (stem ++ "." ++ Attachment.fileExt name)%string).
Proof.
  pose proof (join_split "." name) as Hjoin.
  pose proof (split_segments "." name) as Hseg.
  pose proof (split_nonempty "." name) as Hne.
  unfold Attachment.fileExt.
  pose proof (app_removelast_last EmptyString Hne) as Hl.
  split; [exact Hjoin |]. split; [| split].
  - rewrite List.Forall_forall in Hseg. apply Hseg.
    rewrite Hl at 2. apply in_app_iff. right. left. reflexivity.
  - intros H. rewrite (split_without_sep _ _ H). reflexivity.
  - intros H.
    destruct (removelast (Attachment.split "." name)) as [| seg init] eqn:Er.
    + exfalso. rewrite Hl in Hjoin, Hseg. simpl in Hjoin.
      inversion Hseg as [| ? ? Hno _]; subst. rewrite Hjoin in Hno. congruence.
    + exists (Attachment.join "." (seg :: init)).
      rewrite Hl in Hjoin at 1. rewrite join_snoc in Hjoin; [| discriminate].
      symmetry. exact Hjoin.
Qed.

(** "photo.final.png" has the extension "png"; "README" is its own. *)
Lemma fileExt_is_last_piece_witness :
  Attachment.fileExt "README" = "README"
  /\ exists stem, "photo.final.png" = (stem ++ "." ++ Attachment.fileExt "photo.final.png")%string.
Proof.
  split.
  - destruct (fileExt_is_last_piece "README") as (_ & _ & H & _). apply H. reflexivity.
  - destruct (fileExt_is_last_piece "photo.final.png") as (_ & _ & _ & H). apply H. reflexivity.
Defined.

End Attachments.

(** ** The selection of the side bar *)

Section Selection.

Lemma find_id_none (k : uuid) (us : list Profile.t) :
  List.find (fun u => String.eqb (Profile.id u) k) us = None <-> ~ In k (map Profile.id us).
Proof.
  induction us as [| u us IH]; simpl; [tauto |].
  destruct (String.eqb (Profile.id u) k) eqn:E.
  - apply String.eqb_eq in E. split; [discriminate | intros H; exfalso; apply H; auto].
  - apply String.eqb_neq in E. rewrite IH. tauto.
Qed.

Lemma filter_other_id (k : uuid) (us : list Profile.t) :
  ~ In k (map Profile.id us) ->
  List.filter (fun u => negb (String.eqb (Profile.id u) k)) us = us.
Proof.
  induction us as [| u us IH]; simpl; [reflexivity |]. intros H.
  destruct (String.eqb (Profile.id u) k) eqn:E.
  - apply String.eqb_eq in E. exfalso. apply H. auto.
  - simpl. rewrite IH; [reflexivity | tauto].
Qed.

Lemma find_app_none {A : Type} (f : A -> bool) (l l' : list A) :
  List.find f l = None -> List.find f (l ++ l') = List.find f l'.
Proof.
  induction l as [| a l IH]; simpl; [reflexivity |].
  destruct (f a); [discriminate | exact IH].
Qed.

(** X15: selecting a user.  [handleUserSelect] leaves the user
    selected, never selects an id twice, changes nothing of the selection
    when the id is selected already (so selecting twice is selecting once),
    and empties the search box and the suggestions. *)
Theorem handleUserSelect_selection (user : Profile.t) (st : Sidebar.t) :
  let st' := Sidebar.handleUserSelect user st in
  In (Profile.id user) (selected_ids st')
  /\ (List.NoDup (selected_ids st) -> List.NoDup (selected_ids st'))
  /\ (In (Profile.id user) (selected_ids st) ->
      Sidebar.selectedUsers st' = Sidebar.selectedUsers st)
  /\ (~ In (Profile.id user) (selected_ids st) ->
      Sidebar.selectedUsers st' = Sidebar.selectedUsers st ++ [user])
  /\ Sidebar.handleUserSelect user st' = st'
  /\ Sidebar.searchQuery st' = EmptyString
  /\ Sidebar.suggestions st' = [].
Proof.
  intros st'. unfold st', selected_ids, Sidebar.handleUserSelect. simpl.
  destruct (List.find _ (Sidebar.selectedUsers st)) as [x |] eqn:F.
  - assert (In (Profile.id user) (map Profile.id (Sidebar.selectedUsers st))) as Hin.
    { apply find_some in F as [Hx E]. apply String.eqb_eq in E. rewrite <- E.
      apply in_map, Hx. }
    repeat split; auto.
    + intros Hno. contradiction.
    + rewrite F. reflexivity.
  - assert (~ In (Profile.id user) (map Profile.id (Sidebar.selectedUsers st))) as Hno
        by (apply find_id_none, F).
    repeat split; auto.
    + rewrite map_app. apply in_app_iff. right. left. reflexivity.
    + intros Hnd. rewrite map_app. apply NoDup_snoc; assumption.
    + intros Hin. contradiction.
    + assert (List.find (fun u => String.eqb (Profile.id u) (Profile.id user))
                        (Sidebar.selectedUsers st ++ [user]) = Some user) as ->;
        [| reflexivity].
      rewrite (find_app_none _ _ _ F). simpl. rewrite String.eqb_refl. reflexivity.
Qed.

(** Alice selects Bob twice and has him once. *)
Lemma handleUserSelect_selection_witness :
  Sidebar.selectedUsers
    (Sidebar.handleUserSelect Sample.bob
       (Sidebar.handleUserSelect Sample.bob (Sidebar.mk true "bo" [] [Sample.bob] false)))
  = [Sample.bob].
Proof.
  destruct (handleUserSelect_selection Sample.bob
              (Sidebar.handleUserSelect Sample.bob (Sidebar.mk true "bo" [] [Sample.bob] false)))
    as (_ & _ & H & _).
  rewrite H; [reflexivity | simpl; auto].
Defined.

(** X16: removing a user from the selection.  [handleRemoveUser]
    leaves no selected user with the id it is given, keeps the others in
    their order, keeps ids distinct, and undoes the selection of a user who
    was not selected before. *)
Theorem handleRemoveUser_selection (userId : uuid) (st : Sidebar.t) :
  let st' := Sidebar.handleRemoveUser userId st in
  ~ In userId (selected_ids st')
  /\ (forall u, In u (Sidebar.selectedUsers st') <->
                In u (Sidebar.selectedUsers st) /\ Profile.id u <> userId)
  /\ (List.NoDup (selected_ids st) -> List.NoDup (selected_ids st'))
  /\ (~ In userId (selected_ids st) -> st' = st)
  /\ (forall user, Profile.id user = userId -> ~ In userId (selected_ids st) ->
        Sidebar.selectedUsers (Sidebar.handleRemoveUser userId
                                 (Sidebar.handleUserSelect user st))
        = Sidebar.selectedUsers st).
Proof.
  intros st'. unfold st', selected_ids, Sidebar.handleRemoveUser. simpl.
  assert (forall u, In u (List.filter (fun u => negb (String.eqb (Profile.id u) userId))
                                      (Sidebar.selectedUsers st)) <->
                    In u (Sidebar.selectedUsers st) /\ Profile.id u <> userId) as Hiff.
  { intros u. rewrite filter_In, negb_true_iff, String.eqb_neq. tauto. }
  split; [| split; [exact Hiff | split; [| split]]].
  - intros Hin. apply in_map_iff in Hin as (u & E & Hu). apply Hiff in Hu as [_ Hne].
    contradiction.
  - intros Hnd. clear Hiff.
    induction (Sidebar.selectedUsers st) as [| u us IH]; simpl; [constructor |].
    inversion Hnd as [| ? ? Hnot Hnd']; subst.
    destruct (String.eqb (Profile.id u) userId); simpl; [exact (IH Hnd') |].
    constructor; [| exact (IH Hnd')].
    intros Hin. apply Hnot. apply in_map_iff in Hin as (x & E & Hx).
    apply filter_In in Hx as [Hx _]. rewrite <- E. apply in_map, Hx.
  - intros Hno. rewrite filter_other_id; [destruct st; reflexivity | exact Hno].
  - intros user Hid Hno. unfold Sidebar.handleUserSelect. simpl.
    assert (List.find (fun u => String.eqb (Profile.id u) (Profile.id user))
                      (Sidebar.selectedUsers st) = None) as ->.
    { apply find_id_none. rewrite Hid. exact Hno. }
    rewrite List.filter_app. simpl. rewrite Hid, String.eqb_refl. simpl.
    rewrite app_nil_r. apply filter_other_id, Hno.
Qed.

(** Selecting Carol next to Bob and removing her again leaves Bob. *)
Lemma handleRemoveUser_selection_witness :
  Sidebar.selectedUsers
    (Sidebar.handleRemoveUser "C"
       (Sidebar.handleUserSelect Sample.carol (Sidebar.mk true "" [Sample.bob] [] false)))
  = [Sample.bob].
Proof.
  destruct (handleRemoveUser_selection "C" (Sidebar.mk true "" [Sample.bob] [] false))
    as (_ & _ & _ & _ & H).
  apply (H Sample.carol); [reflexivity |]. simpl. intros [E | []]. discriminate.
Defined.

(** X17: the suggestions of the search, whatever ILIKE decides and in
    whatever order the server scans the profiles.  There are never more than
    five suggestions, and every suggestion is a stored profile whose full
    name matches the query between two percent signs.  A query that is
    empty once trimmed empties the suggestions; for any other query, when no
    more than five stored profiles match, the suggestions are those
    profiles, in some order.  The selection and the query are not
    touched. *)
Theorem searchUsers_suggestions (ilike : string -> string -> bool)
    (scan : list Profile.t -> list Profile.t) (d : db) (uid : uuid) (st : Sidebar.t) :
  (forall l, Permutation (scan l) l) ->
  let st' := Sidebar.searchUsers ilike scan d uid st in
  let pattern := ("%" ++ Sidebar.searchQuery st ++ "%")%string in
  let matches := fun p => match Profile.full_name p with
                          | Some n => ilike n pattern
                          | None => false
                          end in
  (length (Sidebar.suggestions st') <= 5)%nat
  /\ (forall p, In p (Sidebar.suggestions st') -> In p (profiles d) /\ matches p = true)
  /\ (ChatWindow.blank (Sidebar.searchQuery st) = true -> Sidebar.suggestions st' = [])
  /\ (ChatWindow.blank (Sidebar.searchQuery st) = false ->
      (length (List.filter matches (profiles d)) <= 5)%nat ->
      Permutation (Sidebar.suggestions st') (List.filter matches (profiles d)))
  /\ Sidebar.selectedUsers st' = Sidebar.selectedUsers st
  /\ Sidebar.searchQuery st' = Sidebar.searchQuery st.
Proof.
  intros Hscan st' pattern matches.
  assert (Sidebar.select_profiles ilike scan d (authenticated uid) pattern
          = inr (firstn 5 (List.filter matches (scan (profiles d))))) as Hsel.
  { reflexivity. }
  assert (Permutation (List.filter matches (scan (profiles d)))
                      (List.filter matches (profiles d))) as HP.
  { apply Permutation_filter, Hscan. }
  unfold st', Sidebar.searchUsers.
  destruct (ChatWindow.blank (Sidebar.searchQuery st)) eqn:B.
  - cbn [Sidebar.searchQuery Sidebar.isCreating Sidebar.selectedUsers Sidebar.suggestions
         Sidebar.isSearching].
    repeat split; try discriminate; try (simpl; lia); destruct H.
  - cbn [Sidebar.searchQuery Sidebar.isCreating Sidebar.selectedUsers Sidebar.suggestions
         Sidebar.isSearching].
    fold pattern. rewrite Hsel.
    cbn [Sidebar.searchQuery Sidebar.isCreating Sidebar.selectedUsers Sidebar.suggestions
         Sidebar.isSearching].
    split; [apply firstn_le_length |]. split.
    { intros p Hp.
      assert (In p (List.filter matches (scan (profiles d)))) as Hin.
      { rewrite <- (firstn_skipn 5 (List.filter matches (scan (profiles d)))).
        apply in_app_iff. left. exact Hp. }
      apply (Permutation_in p HP) in Hin. apply filter_In in Hin. exact Hin. }
    split; [discriminate |]. split; [| split; reflexivity].
    intros _ Hle. rewrite firstn_all2; [exact HP |].
    rewrite (Permutation_length HP). exact Hle.
Qed.

(** With a matcher that accepts everything and a server that scans the
    table from its end, the three profiles of the sample are all suggested
    for the query "a". *)
Lemma searchUsers_suggestions_witness :
  Permutation
    (Sidebar.suggestions
       (Sidebar.searchUsers (fun _ _ => true) (@rev Profile.t) Sample.d0 "A"
          (Sidebar.mk true "a" [] [] false)))
    [Sample.alice; Sample.bob; Sample.carol].
Proof.
  destruct (searchUsers_suggestions (fun _ _ => true) (@rev Profile.t) Sample.d0 "A"
              (Sidebar.mk true "a" [] [] false)
              (fun l => Permutation_sym (Permutation_rev l)))
    as (_ & _ & _ & H & _).
  apply H; [reflexivity | simpl; lia].
Defined.

End Selection.
(** ** What the chat window stores *)

Section Stored.

(** X18: a text message of the chat window.  [handleSend] does nothing
    for a text that is empty once trimmed.  For any other text it hands the
    message to [sendMessage], whose insert is refused: the database and the
    list in memory stay as they were and [error] holds the message of the
    policies.  So the database is never changed by [handleSend]. *)
Theorem handleSend_stores (d : db) (currentUserId conversationId : uuid) (newMessage : string)
    (clock : timestamp) (now : timestamp) (fresh : uuid) (s : MessageStore.t) :
  let result :=
    ChatWindow.handleSend d currentUserId conversationId newMessage clock now fresh s in
  fst result = d
  /\ (ChatWindow.blank newMessage = true -> snd result = s)
  /\ (ChatWindow.blank newMessage = false ->
      snd result
      = MessageStore.mk (MessageStore.messages s) (MessageStore.loading s)
          (Some (error_message policy_recursion))).
Proof.
  intros result. unfold result, ChatWindow.handleSend. clear result.
  destruct (ChatWindow.blank newMessage).
  - repeat split. discriminate.
  - repeat split. discriminate.
Qed.

(** A no-break space and a space are nothing once trimmed; "hi" is sent,
    and refused. *)
Lemma handleSend_stores_witness :
  snd (ChatWindow.handleSend Sample.d1 "A" "c1"
         (String (ascii_of_nat 194) (String (ascii_of_nat 160) " ")) 100 20 "m1"
         MessageStore.init)
  = MessageStore.init
  /\ snd (ChatWindow.handleSend Sample.d1 "A" "c1" "hi" 100 20 "m1" MessageStore.init)
     = MessageStore.mk [] false (Some (error_message policy_recursion)).
Proof.
  split.
  - apply (proj1 (proj2 (handleSend_stores Sample.d1 "A" "c1"
                           (String (ascii_of_nat 194) (String (ascii_of_nat 160) " "))
                           100 20 "m1" MessageStore.init))).
    reflexivity.
  - apply (proj2 (proj2 (handleSend_stores Sample.d1 "A" "c1" "hi" 100 20 "m1"
                           MessageStore.init))).
    reflexivity.
Defined.

End Stored.

